(** * Quad gantry levelling: a shallow embedding of
      [klippy/extras/just_a_quad_gantry_level.py]

    The module computes on Python floats.  The main embedding reads its
    arithmetic exactly, on rationals ([Q]): Python's [==] on numbers is
    [Qeq] (decided by [Qeq_bool]), [>] is [Qlt] with the arguments swapped.
    What is proved of it on the values of the numbers (a sum that is zero,
    a line through two points) is a statement about the algorithm in exact
    arithmetic; the control flow, the indexing, the exceptions and the
    calls are those of the code.  [Binary64] embeds [linefit] and [plot] a
    second time on IEEE 754 binary64 numbers, with the rounding the code
    has, to show where the two readings part.

    Exceptions and the calls made to collaborators are explicit: a
    computation returns the chronological list of events it emitted together
    with either the exception it raised or its value. *)

From Stdlib Require Import QArith Qabs List String Lia Bool Arith Lqa.
From Stdlib Require Import PrimFloat.
Import ListNotations.

Local Open Scope Q_scope.

(** ** Exceptions, events and the [Py] monad *)

(** Messages keep the format text and the numbers substituted into it; the
    rendering of a number by [%.6f] is not modelled. *)
Record message : Type := Message { msg_text : string; msg_args : list Q }.

Inductive exn : Type :=
| IndexError
| ZeroDivisionError
| ValueError
| ConfigError (text : string)          (* config.error(...) *)
| GcodeError (m : message)             (* self.gcode.error(...) *)
| CollaboratorError (text : string).   (* raised inside a collaborator *)

(** Outcome of the retry helper, as handed back by [check_retry_result]. *)
Inductive retry_result : Type := Converged | Retrying.

Inductive event : Type :=
| RespondInfo (m : message)                     (* self.gcode.respond_info *)
| LogInfo (m : message)                         (* logging.info *)
| AdjustSteppers (adjust : list Q) (speed : Q)  (* self.a_helper.adjust_steppers *)
| CheckRetry (a_positions : list Q)             (* self.retry_helper.check_retry *)
| CheckRetryResult (r : retry_result)           (* self.a_status.check_retry_result *)
| RegisterCommand (name : string) (desc : string).

Definition Py (A : Type) : Type := (list event * (exn + A))%type.

Definition ret {A} (a : A) : Py A := ([], inr a).
Definition raise {A} (e : exn) : Py A := ([], inl e).
Definition emit (ev : event) : Py unit := ([ev], inr tt).

Definition lift {A} (r : exn + A) : Py A := ([], r).

Definition events {A} (m : Py A) : list event := fst m.
Definition outcome {A} (m : Py A) : exn + A := snd m.

(** Sequencing: an exception in [m] stops the computation with the events
    emitted so far; otherwise the events of the continuation follow. *)
Definition bind {A B} (m : Py A) (f : A -> Py B) : Py B :=
  match m with
  | (t, inl e) => (t, inl e)
  | (t, inr a) => match f a with (t', r) => (t ++ t', r) end
  end.

Declare Scope py_scope.
Delimit Scope py_scope with py.
Notation "x <- c1 ;; c2" := (bind c1 (fun x => c2))
  (at level 61, c1 at next level, right associativity) : py_scope.
Notation "' pat <- c1 ;; c2" := (bind c1 (fun x => match x with pat => c2 end))
  (at level 61, pat pattern, c1 at next level, right associativity) : py_scope.
Notation "c1 ;; c2" := (bind c1 (fun _ => c2))
  (at level 61, right associativity) : py_scope.
Local Open Scope py_scope.

(** ** Python primitives used by the module *)

(** [l[i]] for a non-negative literal index. *)
Definition index {A} (l : list A) (i : nat) : Py A :=
  match nth_error l i with
  | Some x => ret x
  | None => raise IndexError
  end.

(** [x / y] on floats raises on a zero divisor. *)
Definition py_div (x y : Q) : Py Q :=
  if Qeq_bool y 0 then raise ZeroDivisionError else ret (x / y).

(** [a > b]. *)
Definition Qgt_bool (a b : Q) : bool := negb (Qle_bool a b).

(** [sum(l)]: starts from 0 and adds left to right. *)
Definition py_sum (l : list Q) : Q := fold_left Qplus l 0.

(** [max(l)]: keeps the first element, replaced by a later one only when
    that one is strictly greater; empty input raises. *)
Fixpoint max_from (m : Q) (l : list Q) : Q :=
  match l with
  | [] => m
  | x :: l' => max_from (if Qgt_bool x m then x else m) l'
  end.

Definition py_max (l : list Q) : Py Q :=
  match l with
  | [] => raise ValueError
  | x :: l' => ret (max_from x l')
  end.

Definition py_len {A} (l : list A) : Q := inject_Z (Z.of_nat (List.length l)).

Fixpoint mapM {A B} (f : A -> Py B) (l : list A) : Py (list B) :=
  match l with
  | [] => ret []
  | x :: l' => y <- f x ;; ys <- mapM f l' ;; ret (y :: ys)
  end.

(** ** [linefit] and [plot] (source lines 144-153)

    A point is the two-element list [[x, y]] built by the caller; a fit is
    the tuple [(m, b)]. *)

Definition point : Type := (Q * Q)%type.
Definition fit : Type := (Q * Q)%type.

Definition linefit (p1 p2 : point) : Py fit :=
  if Qeq_bool (snd p1) (snd p2) then
    (* Straight line *)
    ret (0, snd p1)
  else
    m <- py_div (snd p2 - snd p1) (fst p2 - fst p1) ;;
    let b := snd p1 - m * fst p1 in
    ret (m, b).

Definition plot (f : fit) (x : Q) : Q := fst f * x + snd f.

(** ** The [QuadGantryLevel] object

    The collaborators ([probe_a], [a_tilt], the config and gcode objects)
    are outside this module.  Their calls are recorded as events; what they
    answer is a field of the object. *)

Record Collaborators : Type := {
  (* self.probe_helper.get_lift_speed() *)
  get_lift_speed : Q;
  (* whether a_helper.adjust_steppers(adjust, speed) returns or raises *)
  adjust_steppers_answer : list Q -> Q -> exn + unit;
  (* what retry_helper.check_retry(a_positions) returns or raises *)
  check_retry_answer : list Q -> exn + retry_result
}.

Record QuadGantryLevel : Type := {
  max_adjust : Q;
  horizontal_move_a : Q;
  probe_points : list (Q * Q);      (* self.probe_helper.probe_points *)
  gantry_corners : list (Q * Q);
  collaborators : Collaborators
}.

(** The configuration object and the helper classes are not part of this
    module.  Every call the constructor makes into them is a field of
    [Config], with the arguments the constructor passes: what the call
    returns, or the exception it raises. *)
Record Config : Type := {
  (* config.get_printer() *)
  get_printer : exn + unit;
  (* a_tilt.RetryHelper(config, message) *)
  new_RetryHelper : string -> exn + unit;
  (* config.getfloat(option, default, above=...) *)
  getfloat : string -> Q -> option Q -> exn + Q;
  (* probe_a.ProbePointsHelper(config, self.probe_finalize): the
     probe_points of the helper it returns *)
  new_ProbePointsHelper : exn + list (Q * Q);
  (* a_tilt.AAdjustStatus(self.printer) *)
  new_AAdjustStatus : exn + unit;
  (* a_tilt.AAdjustHelper(config, count) *)
  new_AAdjustHelper : nat -> exn + unit;
  (* config.getlists(option, parser=float, seps=(",", newline), count=...) *)
  getlists : string -> nat -> exn + list (Q * Q);
  (* self.printer.lookup_object(name) *)
  lookup_object : string -> exn + unit;
  (* self.gcode.register_command(name, handler, desc=...) *)
  register_command : string -> string -> exn + unit;
  (* the answers of the collaborators at run time *)
  cfg_collaborators : Collaborators
}.

Definition cmd_JUST_A_QUAD_GANTRY_LEVEL_help : string :=
  "Conform a moving, twistable gantry to the shape of a stationary bed".

(** [QuadGantryLevel.__init__] (source lines 27-54). *)
Definition __init__ (config : Config) : Py QuadGantryLevel :=
  lift (get_printer config) ;;
  lift (new_RetryHelper config "Possibly Z motor numbering is wrong") ;;
  max_adjust <- lift (getfloat config "max_adjust" 4 (Some 0)) ;;
  horizontal_move_a <- lift (getfloat config "horizontal_move_a" 5 None) ;;
  probe_points <- lift (new_ProbePointsHelper config) ;;
  if negb (Nat.eqb (List.length probe_points) 4) then
    raise (ConfigError "Need exactly 4 probe points for quad_gantry_level")
  else
    lift (new_AAdjustStatus config) ;;
    lift (new_AAdjustHelper config 4) ;;
    gantry_corners <- lift (getlists config "gantry_corners" 2) ;;
    if Nat.ltb (List.length gantry_corners) 2 then
      raise (ConfigError "quad_gantry_level requires at least two gantry_corners")
    else
      (* Register QUAD_GANTRY_LEVEL command *)
      lift (lookup_object config "gcode") ;;
      emit (RegisterCommand "JUST_A_QUAD_GANTRY_LEVEL"
                            cmd_JUST_A_QUAD_GANTRY_LEVEL_help) ;;
      lift (register_command config "JUST_A_QUAD_GANTRY_LEVEL"
                             cmd_JUST_A_QUAD_GANTRY_LEVEL_help) ;;
      ret {| max_adjust := max_adjust;
             horizontal_move_a := horizontal_move_a;
             probe_points := probe_points;
             gantry_corners := gantry_corners;
             collaborators := cfg_collaborators config |}.


(** ** [probe_finalize] (source lines 65-142) *)

(** [offsets] is the probe's 3-tuple of offsets. *)
Definition offsets_t : Type := (Q * Q * Q)%type.
Definition offsets_0 (o : offsets_t) : Q := fst (fst o).
Definition offsets_1 (o : offsets_t) : Q := snd (fst o).

(** [positions[i][j]] *)
Definition coord (positions : list (list Q)) (i j : nat) : Py Q :=
  p <- index positions i ;; index p j.

(** [[positions[i][j] + off, values[k]]] *)
Definition sample_point (positions : list (list Q)) (i j : nat) (off : Q)
    (values : list Q) (k : nat) : Py point :=
  c <- coord positions i j ;;
  v <- index values k ;;
  ret (c + off, v).

(** [[positions[i][1] + offsets[1], self.plot(f, self.gantry_corners[c][0])]] *)
Definition corner_point (self : QuadGantryLevel) (positions : list (list Q))
    (offsets : offsets_t) (i : nat) (f : fit) (c : nat) : Py point :=
  y <- coord positions i 1 ;;
  gc <- index (gantry_corners self) c ;;
  ret (y + offsets_1 offsets, plot f (fst gc)).

(** [self.plot(f, self.gantry_corners[c][1])] *)
Definition height_at (self : QuadGantryLevel) (f : fit) (c : nat) : Py Q :=
  gc <- index (gantry_corners self) c ;;
  ret (plot f (snd gc)).

(** Lines 68-127: from the probe results to the adjustments.  Returns
    [(a_positions, a_adjust)], the two locals the rest of [probe_finalize]
    uses. *)
Definition compute_adjust (self : QuadGantryLevel) (offsets : offsets_t)
    (positions : list (list Q)) : Py (list Q * list Q) :=
  (* Mirror our perspective so the adjustments make sense
     from the perspective of the gantry *)
  a_positions <-
    mapM (fun p => p3 <- index p 3 ;; ret (horizontal_move_a self - p3))
         positions ;;
  emit (RespondInfo (Message "Gantry-relative probe points:" a_positions)) ;;
  (* Calculate slope along X axis between probe point 0 and 3 *)
  ppx0 <- sample_point positions 0 0 (offsets_0 offsets) a_positions 0 ;;
  ppx3 <- sample_point positions 3 0 (offsets_0 offsets) a_positions 3 ;;
  slope_x_pp03 <- linefit ppx0 ppx3 ;;
  (* Calculate slope along X axis between probe point 1 and 2 *)
  ppx1 <- sample_point positions 1 0 (offsets_0 offsets) a_positions 1 ;;
  ppx2 <- sample_point positions 2 0 (offsets_0 offsets) a_positions 2 ;;
  slope_x_pp12 <- linefit ppx1 ppx2 ;;
  emit (LogInfo (Message "quad_gantry_level f1: %s, f2: %s"
                   [fst slope_x_pp03; snd slope_x_pp03;
                    fst slope_x_pp12; snd slope_x_pp12])) ;;
  (* Calculate gantry slope along Y axis between stepper 0 and 1 *)
  a1 <- corner_point self positions offsets 0 slope_x_pp03 0 ;;
  a2 <- corner_point self positions offsets 1 slope_x_pp12 0 ;;
  slope_y_s01 <- linefit a1 a2 ;;
  (* Calculate gantry slope along Y axis between stepper 2 and 3 *)
  b1 <- corner_point self positions offsets 0 slope_x_pp03 1 ;;
  b2 <- corner_point self positions offsets 1 slope_x_pp12 1 ;;
  slope_y_s23 <- linefit b1 b2 ;;
  emit (LogInfo (Message "quad_gantry_level af: %s, bf: %s"
                   [fst slope_y_s01; snd slope_y_s01;
                    fst slope_y_s23; snd slope_y_s23])) ;;
  (* Calculate a height of each stepper *)
  h0 <- height_at self slope_y_s01 0 ;;
  h1 <- height_at self slope_y_s01 1 ;;
  h2 <- height_at self slope_y_s23 1 ;;
  h3 <- height_at self slope_y_s23 0 ;;
  let a_height := [h0; h1; h2; h3] in
  emit (RespondInfo (Message "Actuator Positions:" (firstn 4 a_height))) ;;
  a_ave <- py_div (py_sum a_height) (py_len a_height) ;;
  emit (RespondInfo (Message "Average: %0.6f" [a_ave])) ;;
  let a_adjust := map (fun a => a_ave - a) a_height in
  ret (a_positions, a_adjust).

(** [self.a_helper.adjust_steppers(a_adjust, speed)] *)
Definition adjust_steppers (self : QuadGantryLevel) (a_adjust : list Q)
    (speed : Q) : Py unit :=
  emit (AdjustSteppers a_adjust speed) ;;
  lift (adjust_steppers_answer (collaborators self) a_adjust speed).

(** [self.retry_helper.check_retry(a_positions)] *)
Definition check_retry (self : QuadGantryLevel) (a_positions : list Q)
    : Py retry_result :=
  emit (CheckRetry a_positions) ;;
  lift (check_retry_answer (collaborators self) a_positions).

(** Modelled from the spec: [a_status.check_retry_result] belongs to the
    status publisher, which the spec describes as a pass-through that
    records the outcome; it hands its argument back. *)
Definition check_retry_result (r : retry_result) : Py retry_result :=
  emit (CheckRetryResult r) ;; ret r.

Definition abort_message (adjust_max max_adjust : Q) : message :=
  Message
    "Aborting quad_gantry_level required adjustment %0.6f is greater than max_adjust %0.6f"
    [adjust_max; max_adjust].

Definition probe_finalize (self : QuadGantryLevel) (offsets : offsets_t)
    (positions : list (list Q)) : Py retry_result :=
  '(a_positions, a_adjust) <- compute_adjust self offsets positions ;;
  adjust_max <- py_max a_adjust ;;
  if Qgt_bool adjust_max (max_adjust self) then
    raise (GcodeError (abort_message adjust_max (max_adjust self)))
  else
    let speed := get_lift_speed (collaborators self) in
    adjust_steppers self a_adjust speed ;;
    r <- check_retry self a_positions ;;
    check_retry_result r.

(** ** Vocabulary of the specification (section 4.2)

    These definitions follow the specification's description of the
    calculation; the theorems compare [probe_finalize] with them. *)

(** A probe sample: X, Y, Z, the auxiliary-axis value, and whatever further
    coordinates the probing collaborator reports. *)
Record probe_sample : Type := {
  sx : Q; sy : Q; sz : Q; sa : Q; s_extra : list Q
}.

Definition coords (s : probe_sample) : list Q :=
  sx s :: sy s :: sz s :: sa s :: s_extra s.

(** Step 1: the mirrored auxiliary-axis position. *)
Definition aux_position (self : QuadGantryLevel) (s : probe_sample) : Q :=
  horizontal_move_a self - sa s.

(** Step 2: a fit along X through two samples, offset-corrected X against
    mirrored position. *)
Definition x_point (self : QuadGantryLevel) (offsets : offsets_t)
    (s : probe_sample) : point :=
  (sx s + offsets_0 offsets, aux_position self s).

Definition x_fit (self : QuadGantryLevel) (offsets : offsets_t)
    (s s' : probe_sample) : Py fit :=
  linefit (x_point self offsets s) (x_point self offsets s').

(** Step 3: a fit along Y at the X-coordinate [cx] of a gantry corner, from
    the two X-fits evaluated there, against the offset-corrected Y of
    samples 0 and 1. *)
Definition y_fit (offsets : offsets_t) (s0 s1 : probe_sample)
    (f03 f12 : fit) (cx : Q) : Py fit :=
  linefit (sy s0 + offsets_1 offsets, plot f03 cx)
          (sy s1 + offsets_1 offsets, plot f12 cx).

(** Step 4: actuators 0 and 1 on [s01] at corner Y 0 and 1, actuators 2 and
    3 on [s23] at corner Y 1 and 0. *)
Definition crossed_heights (s01 s23 : fit) (c0 c1 : Q * Q) : list Q :=
  [plot s01 (snd c0); plot s01 (snd c1); plot s23 (snd c1); plot s23 (snd c0)].

(** Step 5: mean minus each height. *)
Definition mean (h : list Q) : Q := py_sum h / py_len h.
Definition deviations (h : list Q) : list Q := map (fun a => mean h - a) h.

Definition points_message (a_positions : list Q) : message :=
  Message "Gantry-relative probe points:" a_positions.
Definition x_fits_message (f03 f12 : fit) : message :=
  Message "quad_gantry_level f1: %s, f2: %s"
          [fst f03; snd f03; fst f12; snd f12].
Definition y_fits_message (s01 s23 : fit) : message :=
  Message "quad_gantry_level af: %s, bf: %s"
          [fst s01; snd s01; fst s23; snd s23].
Definition heights_message (h : list Q) : message :=
  Message "Actuator Positions:" h.
Definition average_message (a_ave : Q) : message :=
  Message "Average: %0.6f" [a_ave].

(** The events of a calculation that reaches its end. *)
Definition calculation_events (a_positions : list Q) (f03 f12 s01 s23 : fit)
    (h : list Q) : list event :=
  [RespondInfo (points_message a_positions);
   LogInfo (x_fits_message f03 f12);
   LogInfo (y_fits_message s01 s23);
   RespondInfo (heights_message h);
   RespondInfo (average_message (mean h))].

Definition is_adjust_steppers (ev : event) : bool :=
  match ev with AdjustSteppers _ _ => true | _ => false end.

(** [no_move m]: [m] never asks the actuators to move. *)
Definition no_move {A} (m : Py A) : Prop :=
  filter is_adjust_steppers (events m) = [].

Definition is_register_command (ev : event) : bool :=
  match ev with RegisterCommand _ _ => true | _ => false end.

(** ** Concrete rounds and configurations used to exercise the model *)

(** Collaborators that never fail; the retry helper asks for another round. *)
Definition quiet : Collaborators :=
  {| get_lift_speed := 5;
     adjust_steppers_answer := fun _ _ => inr tt;
     check_retry_answer := fun _ => inr Retrying |}.

(** A 10 x 10 gantry probed at its corners, [max_adjust] 4. *)
Definition square_gantry : QuadGantryLevel :=
  {| max_adjust := 4;
     horizontal_move_a := 5;
     probe_points := [(0, 0); (0, 10); (10, 10); (10, 0)];
     gantry_corners := [(0, 0); (10, 10)];
     collaborators := quiet |}.

Definition no_offsets : offsets_t := (0, 0, 0).

(** Probe 0 reads -3, the others 5: mirrored positions 8, 0, 0, 0. *)
Definition one_high_corner : list (list Q) :=
  [[0; 0; 0; -3]; [0; 10; 0; 5]; [10; 10; 0; 5]; [10; 0; 0; 5]].

(** Probe 0 reads 13, the others 5: mirrored positions -8, 0, 0, 0. *)
Definition one_low_corner : list (list Q) :=
  [[0; 0; 0; 13]; [0; 10; 0; 5]; [10; 10; 0; 5]; [10; 0; 0; 5]].

(** All four probes read 5. *)
Definition level_round : list (list Q) :=
  [[0; 0; 0; 5]; [0; 10; 0; 5]; [10; 10; 0; 5]; [10; 0; 0; 5]].

(** A mildly twisted gantry. *)
Definition twisted_round : list (list Q) :=
  [[0; 0; 0; 5.1]; [0; 10; 0; 5]; [10; 10; 0; 4.9]; [10; 0; 0; 5]].

(** The same round with probes 0 and 3 at the same X: the X-fit through
    them divides by zero. *)
Definition stacked_round : list (list Q) :=
  [[0; 0; 0; 5.1]; [0; 10; 0; 5]; [10; 10; 0; 4.9]; [0; 0; 0; 5]].

(** A sample with exactly four coordinates. *)
Definition sample4 (x y z a : Q) : probe_sample :=
  {| sx := x; sy := y; sz := z; sa := a; s_extra := [] |}.

(** A configuration whose options are absent ([getfloat] answers the
    default) and whose helpers all construct, with the given probe points
    and gantry corners. *)
Definition plain_config (pts gcs : list (Q * Q)) : Config :=
  {| get_printer := inr tt;
     new_RetryHelper := fun _ => inr tt;
     getfloat := fun _ default _ => inr default;
     new_ProbePointsHelper := inr pts;
     new_AAdjustStatus := inr tt;
     new_AAdjustHelper := fun _ => inr tt;
     getlists := fun _ _ => inr gcs;
     lookup_object := fun _ => inr tt;
     register_command := fun _ _ => inr tt;
     cfg_collaborators := quiet |}.

Definition good_config : Config :=
  plain_config [(0, 0); (0, 10); (10, 10); (10, 0)] [(0, 0); (10, 10)].

Definition three_points_config : Config :=
  plain_config [(0, 0); (0, 10); (10, 10)] [(0, 0); (10, 10)].

Definition one_corner_config : Config :=
  plain_config [(0, 0); (0, 10); (10, 10); (10, 0)] [(0, 0)].

(** The values of the calculation on some of these rounds. *)
Definition fit_of (m : Py fit) : fit :=
  match outcome m with inr f => f | inl _ => (0, 0) end.

Definition adjust_of (m : Py (list Q * list Q)) : list Q :=
  match outcome m with inr (_, a_adjust) => a_adjust | inl _ => [] end.

Definition twisted_f03 : fit :=
  Eval vm_compute in
    fit_of (x_fit square_gantry no_offsets
                  (sample4 0 0 0 5.1) (sample4 10 0 0 5)).
Definition twisted_f12 : fit :=
  Eval vm_compute in
    fit_of (x_fit square_gantry no_offsets
                  (sample4 0 10 0 5) (sample4 10 10 0 4.9)).
Definition twisted_s01 : fit :=
  Eval vm_compute in
    fit_of (y_fit no_offsets (sample4 0 0 0 5.1) (sample4 0 10 0 5)
                  twisted_f03 twisted_f12 0).
Definition twisted_s23 : fit :=
  Eval vm_compute in
    fit_of (y_fit no_offsets (sample4 0 0 0 5.1) (sample4 0 10 0 5)
                  twisted_f03 twisted_f12 10).

Definition one_high_adjust : list Q :=
  Eval vm_compute in
    adjust_of (compute_adjust square_gantry no_offsets one_high_corner).
Definition one_low_adjust : list Q :=
  Eval vm_compute in
    adjust_of (compute_adjust square_gantry no_offsets one_low_corner).

(** ** [load_config] (source lines 159-160) *)

Definition load_config (config : Config) : Py QuadGantryLevel :=
  __init__ config.

(** ** Further vocabulary for the properties of a round *)

(** The mirrored position of a raw sample [p], read with Python's [p[3]]
    where it exists. *)
Definition mirrored (self : QuadGantryLevel) (p : list Q) : Q :=
  horizontal_move_a self - nth 3 p 0.

(** The same object with another [horizontal_move_a]. *)
Definition with_horizontal_move_a (self : QuadGantryLevel) (h : Q)
    : QuadGantryLevel :=
  {| max_adjust := max_adjust self;
     horizontal_move_a := h;
     probe_points := probe_points self;
     gantry_corners := gantry_corners self;
     collaborators := collaborators self |}.

(** A twisted plane: [alpha * x + beta * y + delta * x * y + gamma]. *)
Definition bilinear (alpha beta delta gamma x y : Q) : Q :=
  alpha * x + beta * y + delta * x * y + gamma.

(** Two fits that denote the same line. *)
Definition fit_eq (f g : fit) : Prop := fst f == fst g /\ snd f == snd g.

(** Two samples that agree on X and on the auxiliary-axis value. *)
Definition same_x_and_aux (s s' : probe_sample) : Prop :=
  sx s = sx s' /\ sa s = sa s'.

(** [raises_only P m]: whatever [m] raises satisfies [P]. *)
Definition raises_only {A} (P : exn -> Prop) (m : Py A) : Prop :=
  forall e, outcome m = inl e -> P e.

Definition calculation_error (e : exn) : Prop :=
  e = IndexError \/ e = ZeroDivisionError.

(** The same object with other gantry corners. *)
Definition with_gantry_corners (self : QuadGantryLevel)
    (corners : list (Q * Q)) : QuadGantryLevel :=
  {| max_adjust := max_adjust self;
     horizontal_move_a := horizontal_move_a self;
     probe_points := probe_points self;
     gantry_corners := corners;
     collaborators := collaborators self |}.

(** Actuators 0 and 2 exchanged, and actuators 1 and 3. *)
Definition swap_diagonals (l : list Q) : list Q :=
  match l with
  | [d0; d1; d2; d3] => [d2; d3; d0; d1]
  | _ => l
  end.

(** ** [linefit] and [plot] on binary64 numbers

    The same two functions (source lines 144-153) on IEEE 754 binary64
    numbers, rounding to nearest as Python's floats do.  [==] is the IEEE
    comparison, and a division by a zero of either sign raises. *)
Module Binary64.

Definition point : Type := (float * float)%type.
Definition fit : Type := (float * float)%type.

Definition py_div (x y : float) : Py float :=
  if PrimFloat.eqb y 0%float then raise ZeroDivisionError
  else ret (PrimFloat.div x y).

Definition linefit (p1 p2 : point) : Py fit :=
  if PrimFloat.eqb (snd p1) (snd p2) then
    (* Straight line *)
    ret (0%float, snd p1)
  else
    m <- py_div (PrimFloat.sub (snd p2) (snd p1))
                (PrimFloat.sub (fst p2) (fst p1)) ;;
    let b := PrimFloat.sub (snd p1) (PrimFloat.mul m (fst p1)) in
    ret (m, b).

Definition plot (f : fit) (x : float) : float :=
  PrimFloat.add (PrimFloat.mul (fst f) x) (snd f).

End Binary64.


(** A configuration whose [max_adjust] is refused by [getfloat]. *)
Definition refused_max_adjust_config : Config :=
  {| get_printer := inr tt;
     new_RetryHelper := fun _ => inr tt;
     getfloat := fun name default above =>
                   match above with
                   | Some _ => inl (ConfigError name)
                   | None => inr default
                   end;
     new_ProbePointsHelper := inr [(0, 0); (0, 10); (10, 10); (10, 0)];
     new_AAdjustStatus := inr tt;
     new_AAdjustHelper := fun _ => inr tt;
     getlists := fun _ _ => inr [(0, 0); (10, 10)];
     lookup_object := fun _ => inr tt;
     register_command := fun _ _ => inr tt;
     cfg_collaborators := quiet |}.

(** * Properties *)

(** ** The monad *)

Section MonadFacts.
Context {A B : Type}.

Lemma outcome_bind (m : Py A) (f : A -> Py B) :
  outcome (bind m f) =
  match outcome m with inl e => inl e | inr a => outcome (f a) end.
Proof. destruct m as [t [e | a]]; cbn; [reflexivity | now destruct (f a)]. Qed.

Lemma events_bind (m : Py A) (f : A -> Py B) :
  events (bind m f) =
  events m ++ match outcome m with inl _ => [] | inr a => events (f a) end.
Proof.
  destruct m as [t [e | a]]; cbn; [now rewrite app_nil_r | now destruct (f a)].
Qed.

Lemma bind_ret (a : A) (f : A -> Py B) : bind (ret a) f = f a.
Proof. unfold bind; cbn. now destruct (f a). Qed.

Lemma bind_raise (e : exn) (f : A -> Py B) : bind (raise e) f = raise e.
Proof. reflexivity. Qed.

Lemma bind_ext (m : Py A) (f g : A -> Py B) :
  (forall a, f a = g a) -> bind m f = bind m g.
Proof. intros H. destruct m as [t [e | a]]; cbn; now rewrite ?H. Qed.

Lemma bind_assoc {C} (m : Py A) (f : A -> Py B) (g : B -> Py C) :
  bind (bind m f) g = bind m (fun a => bind (f a) g).
Proof.
  destruct m as [t [e | a]]; cbn; [reflexivity |].
  destruct (f a) as [t' [e | b]]; cbn; [reflexivity |].
  destruct (g b) as [t'' r]. now rewrite app_assoc.
Qed.
End MonadFacts.

(** ** Comparisons *)

Lemma Qgt_bool_true (a b : Q) : Qgt_bool a b = true <-> b < a.
Proof.
  unfold Qgt_bool. rewrite negb_true_iff, <- not_true_iff_false, Qle_bool_iff.
  split; [apply Qnot_le_lt | apply Qlt_not_le].
Qed.

Lemma Qgt_bool_false (a b : Q) : Qgt_bool a b = false <-> a <= b.
Proof.
  unfold Qgt_bool. rewrite negb_false_iff. apply Qle_bool_iff.
Qed.

Lemma Qeq_bool_false (a b : Q) : Qeq_bool a b = false <-> ~ a == b.
Proof.
  rewrite <- not_true_iff_false, Qeq_bool_iff. tauto.
Qed.

(** ** [linefit] *)

Lemma py_div_nonzero (x y : Q) : ~ y == 0 -> py_div x y = ret (x / y).
Proof.
  intros H. unfold py_div. apply Qeq_bool_false in H. now rewrite H.
Qed.

Lemma py_div_zero (x y : Q) : y == 0 -> py_div x y = raise ZeroDivisionError.
Proof.
  intros H. unfold py_div. apply Qeq_bool_iff in H. now rewrite H.
Qed.

Lemma linefit_flat (p1 p2 : point) :
  snd p1 == snd p2 -> linefit p1 p2 = ret (0, snd p1).
Proof.
  intros H. unfold linefit. apply Qeq_bool_iff in H. now rewrite H.
Qed.

Lemma linefit_sloped (p1 p2 : point) :
  ~ snd p1 == snd p2 -> ~ fst p1 == fst p2 ->
  linefit p1 p2 =
  ret ((snd p2 - snd p1) / (fst p2 - fst p1),
       snd p1 - (snd p2 - snd p1) / (fst p2 - fst p1) * fst p1).
Proof.
  intros Hy Hx. unfold linefit. apply Qeq_bool_false in Hy. rewrite Hy.
  rewrite py_div_nonzero, bind_ret; [reflexivity |].
  intros H. apply Hx. symmetry. 
  setoid_replace (fst p2) with (fst p2 - fst p1 + fst p1) by ring.
  rewrite H. ring.
Qed.

Lemma linefit_vertical (p1 p2 : point) :
  ~ snd p1 == snd p2 -> fst p1 == fst p2 ->
  linefit p1 p2 = raise ZeroDivisionError.
Proof.
  intros Hy Hx. unfold linefit. apply Qeq_bool_false in Hy. rewrite Hy.
  rewrite py_div_zero; [reflexivity |]. rewrite Hx. ring.
Qed.

(** [linefit] emits nothing and either returns a fit or raises
    [ZeroDivisionError]. *)
Lemma linefit_cases (p1 p2 : point) :
  (exists f, linefit p1 p2 = ret f) \/ linefit p1 p2 = raise ZeroDivisionError.
Proof.
  destruct (Qeq_dec (snd p1) (snd p2)) as [Hy | Hy].
  - left. eexists. now apply linefit_flat.
  - destruct (Qeq_dec (fst p1) (fst p2)) as [Hx | Hx].
    + right. now apply linefit_vertical.
    + left. eexists. now apply linefit_sloped.
Qed.

(** C4: two points with equal y-values give slope 0 and the first point's
    y-value as intercept, whatever the x-values are (equal x-values
    included). *)
Theorem linefit_equal_y (x1 y1 x2 y2 : Q) :
  y1 == y2 -> linefit (x1, y1) (x2, y2) = ret (0, y1).
Proof. intros H. now apply (linefit_flat (x1, y1) (x2, y2)). Qed.

Lemma linefit_equal_y_witness :
  5 == 10 # 2 /\ linefit (3, 5) (3, 10 # 2) = ret (0, 5).
Proof. split; [reflexivity | apply linefit_equal_y; reflexivity]. Defined.

(** C5, as amended: in exact arithmetic, for x1 <> x2, [linefit] returns a
    pair (m, b) whose line passes through both points, and no other line
    does. *)
Theorem linefit_through_both_points (x1 y1 x2 y2 : Q) :
  ~ x1 == x2 ->
  exists m b,
    linefit (x1, y1) (x2, y2) = ret (m, b) /\
    plot (m, b) x1 == y1 /\
    plot (m, b) x2 == y2 /\
    forall m' b', plot (m', b') x1 == y1 -> plot (m', b') x2 == y2 ->
                  m' == m /\ b' == b.
Proof.
  intros Hx.
  assert (Hd : ~ x2 - x1 == 0).
  { intros H. apply Hx. symmetry.
    setoid_replace x2 with (x2 - x1 + x1) by ring. rewrite H. ring. }
  assert (Huniq : forall m b m' b',
             plot (m, b) x1 == y1 -> plot (m, b) x2 == y2 ->
             plot (m', b') x1 == y1 -> plot (m', b') x2 == y2 ->
             m' == m /\ b' == b).
  { unfold plot; cbn [fst snd]. intros m b m' b' H1 H2 H1' H2'.
    assert (Hm : m' == m).
    { assert (E : (m' - m) * (x2 - x1) == 0).
      { setoid_replace ((m' - m) * (x2 - x1))
          with ((m' * x2 + b') - (m' * x1 + b') - ((m * x2 + b) - (m * x1 + b)))
          by ring.
        rewrite H1, H2, H1', H2'. ring. }
      apply Qmult_integral in E. destruct E as [E | E]; [| contradiction].
      setoid_replace m' with (m' - m + m) by ring. rewrite E. ring. }
    split; [exact Hm |].
    setoid_replace b' with ((m' * x1 + b') - m' * x1) by ring.
    rewrite H1', Hm, <- H1. ring. }
  destruct (Qeq_dec y1 y2) as [Hy | Hy].
  - exists 0, y1. rewrite linefit_equal_y by exact Hy.
    assert (P1 : plot (0, y1) x1 == y1) by (unfold plot; cbn [fst snd]; ring).
    assert (P2 : plot (0, y1) x2 == y2)
      by (unfold plot; cbn [fst snd]; rewrite <- Hy; ring).
    split; [reflexivity |]. split; [exact P1 |]. split; [exact P2 |].
    intros m' b' H1 H2. now apply (Huniq 0 y1 m' b').
  - exists ((y2 - y1) / (x2 - x1)), (y1 - (y2 - y1) / (x2 - x1) * x1).
    rewrite (linefit_sloped (x1, y1) (x2, y2)) by assumption. cbn [fst snd].
    assert (P1 : plot ((y2 - y1) / (x2 - x1),
                       y1 - (y2 - y1) / (x2 - x1) * x1) x1 == y1)
      by (unfold plot; cbn [fst snd]; field; exact Hd).
    assert (P2 : plot ((y2 - y1) / (x2 - x1),
                       y1 - (y2 - y1) / (x2 - x1) * x1) x2 == y2)
      by (unfold plot; cbn [fst snd]; field; exact Hd).
    split; [reflexivity |]. split; [exact P1 |]. split; [exact P2 |].
    intros m' b' H1 H2. now apply (Huniq _ _ m' b' P1 P2).
Qed.

Lemma linefit_through_both_points_witness :
  ~ 1 == 3 /\
  exists m b,
    linefit (1, 2) (3, 5) = ret (m, b) /\
    plot (m, b) 1 == 2 /\
    plot (m, b) 3 == 5 /\
    forall m' b', plot (m', b') 1 == 2 -> plot (m', b') 3 == 5 ->
                  m' == m /\ b' == b.
Proof.
  split; [discriminate | apply linefit_through_both_points; discriminate].
Defined.

(** ** Where rounding shows

    Decimal literals below denote the nearest binary64 number, as they do
    in Python. *)

#[local] Set Warnings "-inexact-float".

(** C5 as stated fails on the numbers the code computes with: on binary64
    the line fitted through (50, 0.2) and (250, 0.05), two points with
    different x, evaluates at 250 to 0.04999999999999999 and not to
    0.05. *)
Lemma binary64_linefit_misses_second_point :
  PrimFloat.eqb 50 250 = false /\
  exists f,
    Binary64.linefit (50, 0.2)%float (250, 0.05)%float = ret f /\
    Binary64.plot f 250 = 0.04999999999999999%float /\
    PrimFloat.eqb (Binary64.plot f 250) 0.05 = false.
Proof.
  split; [reflexivity |].
  eexists. split; [vm_compute; reflexivity |].
  split; vm_compute; reflexivity.
Qed.

(** On binary64 the two orders of the same two points give intercepts
    that differ in the last digit. *)
Example binary64_linefit_order :
  Binary64.linefit (50, 0.2)%float (250, 0.05)%float =
    ret (-0.0007500000000000001, 0.23750000000000002)%float /\
  Binary64.linefit (250, 0.05)%float (50, 0.2)%float =
    ret (-0.0007500000000000001, 0.23750000000000004)%float.
Proof. split; vm_compute; reflexivity. Qed.

(** On binary64 the mirroring can merge two readings: 0.1 + 0.2 and 0.3
    differ, 5 minus each is the same 4.7.  Two samples at the same X with
    these readings are fitted as a flat line with the reference 5 and
    divide by zero with the reference 0. *)
Example binary64_mirroring_merges_readings :
  Binary64.linefit (0, 5 - (0.1 + 0.2))%float (0, 5 - 0.3)%float =
    ret (0, 4.7)%float /\
  Binary64.linefit (0, 0 - (0.1 + 0.2))%float (0, 0 - 0.3)%float =
    raise ZeroDivisionError.
Proof. split; vm_compute; reflexivity. Qed.

#[local] Set Warnings "+inexact-float".

(** C10: the guard of [linefit] is on the y-values.  The division is by
    zero exactly when x1 == x2 and y1 <> y2; in every other case (x1 <> x2
    or y1 == y2) [linefit] returns a fit, and it never raises anything but
    [ZeroDivisionError]. *)
Theorem linefit_division_guard (p1 p2 : point) :
  (linefit p1 p2 = raise ZeroDivisionError <->
   fst p1 == fst p2 /\ ~ snd p1 == snd p2) /\
  ((exists f, linefit p1 p2 = ret f) <->
   ~ fst p1 == fst p2 \/ snd p1 == snd p2) /\
  (forall e, outcome (linefit p1 p2) = inl e -> e = ZeroDivisionError).
Proof.
  destruct (Qeq_dec (snd p1) (snd p2)) as [Hy | Hy];
    [| destruct (Qeq_dec (fst p1) (fst p2)) as [Hx | Hx]].
  - rewrite (linefit_flat _ _ Hy).
    split; [split | split; [split |]].
    + discriminate.
    + intros [_ H]. contradiction.
    + intros _. now right.
    + intros _. now eexists.
    + discriminate.
  - rewrite (linefit_vertical _ _ Hy Hx).
    split; [split | split; [split |]].
    + intros _. now split.
    + reflexivity.
    + intros [f Hf]. discriminate.
    + intros [H | H]; contradiction.
    + cbn. intros e [= <-]. reflexivity.
  - rewrite (linefit_sloped _ _ Hy Hx).
    split; [split | split; [split |]].
    + discriminate.
    + intros [H _]. contradiction.
    + intros _. now left.
    + intros _. now eexists.
    + discriminate.
Qed.

(** ** The calculation, lines 68-127 *)

Lemma bind_emit {B} (ev : event) (k : unit -> Py B) :
  bind (emit ev) k = (ev :: events (k tt), outcome (k tt)).
Proof. unfold bind, emit. now destruct (k tt). Qed.

(** Run the returns that are already known. *)
Ltac py_steps := repeat (rewrite bind_ret; cbn beta).

Section Calculation.
Variable self : QuadGantryLevel.
Variable offsets : offsets_t.
Variables s0 s1 s2 s3 : probe_sample.
Variables c0 c1 : Q * Q.
Variable cs : list (Q * Q).
Hypothesis corners : gantry_corners self = c0 :: c1 :: cs.

Let positions : list (list Q) := map coords [s0; s1; s2; s3].
Let a_positions : list Q := map (aux_position self) [s0; s1; s2; s3].

(** On four samples and at least two corners no index is out of range,
    and the calculation is the sequence of four fits of the
    specification. *)
Lemma compute_adjust_unfold :
  compute_adjust self offsets positions =
  (emit (RespondInfo (points_message a_positions)) ;;
   f03 <- x_fit self offsets s0 s3 ;;
   f12 <- x_fit self offsets s1 s2 ;;
   emit (LogInfo (x_fits_message f03 f12)) ;;
   s01 <- y_fit offsets s0 s1 f03 f12 (fst c0) ;;
   s23 <- y_fit offsets s0 s1 f03 f12 (fst c1) ;;
   emit (LogInfo (y_fits_message s01 s23)) ;;
   emit (RespondInfo (heights_message (crossed_heights s01 s23 c0 c1))) ;;
   emit (RespondInfo
           (average_message (mean (crossed_heights s01 s23 c0 c1)))) ;;
   ret (a_positions, deviations (crossed_heights s01 s23 c0 c1))).
Proof.
  unfold compute_adjust, corner_point, height_at, sample_point, coord.
  rewrite corners. subst positions a_positions.
  cbn [map mapM]. unfold coords, index. cbn [nth_error].
  py_steps.
  apply bind_ext; intros _. py_steps.
  apply bind_ext; intros f03. py_steps.
  apply bind_ext; intros f12.
  apply bind_ext; intros _. py_steps.
  apply bind_ext; intros s01. py_steps.
  apply bind_ext; intros s23.
  apply bind_ext; intros _. py_steps.
  apply bind_ext; intros _.
  rewrite py_div_nonzero by discriminate. py_steps.
  reflexivity.
Qed.

Lemma compute_adjust_run (f03 f12 s01 s23 : fit) :
  x_fit self offsets s0 s3 = ret f03 ->
  x_fit self offsets s1 s2 = ret f12 ->
  y_fit offsets s0 s1 f03 f12 (fst c0) = ret s01 ->
  y_fit offsets s0 s1 f03 f12 (fst c1) = ret s23 ->
  compute_adjust self offsets positions =
  (calculation_events a_positions f03 f12 s01 s23
     (crossed_heights s01 s23 c0 c1),
   inr (a_positions, deviations (crossed_heights s01 s23 c0 c1))).
Proof.
  intros H03 H12 H01 H23. rewrite compute_adjust_unfold.
  rewrite H03, H12. rewrite bind_emit. py_steps.
  rewrite bind_emit. rewrite H01, H23. py_steps.
  rewrite !bind_emit. reflexivity.
Qed.

(** A fit that divides by zero ends the calculation at that point. *)
Lemma compute_adjust_x_fit_raises :
  x_fit self offsets s0 s3 = raise ZeroDivisionError \/
  (exists f03, x_fit self offsets s0 s3 = ret f03) /\
  x_fit self offsets s1 s2 = raise ZeroDivisionError ->
  compute_adjust self offsets positions =
  ([RespondInfo (points_message a_positions)], inl ZeroDivisionError).
Proof.
  intros H. rewrite compute_adjust_unfold, bind_emit.
  destruct H as [H | [[f03 H03] H12]].
  - rewrite H. reflexivity.
  - rewrite H03. py_steps. rewrite H12. reflexivity.
Qed.

Lemma compute_adjust_y_fit_raises (f03 f12 : fit) :
  x_fit self offsets s0 s3 = ret f03 ->
  x_fit self offsets s1 s2 = ret f12 ->
  y_fit offsets s0 s1 f03 f12 (fst c0) = raise ZeroDivisionError \/
  (exists s01, y_fit offsets s0 s1 f03 f12 (fst c0) = ret s01) /\
  y_fit offsets s0 s1 f03 f12 (fst c1) = raise ZeroDivisionError ->
  compute_adjust self offsets positions =
  ([RespondInfo (points_message a_positions);
    LogInfo (x_fits_message f03 f12)], inl ZeroDivisionError).
Proof.
  intros H03 H12 H. rewrite compute_adjust_unfold, bind_emit.
  rewrite H03, H12. py_steps. rewrite bind_emit.
  destruct H as [H | [[s01 H01] H23]].
  - rewrite H. reflexivity.
  - rewrite H01. py_steps. rewrite H23. reflexivity.
Qed.

(** The three ways a calculation on well-formed input can go. *)
Lemma compute_adjust_cases :
  (exists f03 f12 s01 s23,
      x_fit self offsets s0 s3 = ret f03 /\
      x_fit self offsets s1 s2 = ret f12 /\
      y_fit offsets s0 s1 f03 f12 (fst c0) = ret s01 /\
      y_fit offsets s0 s1 f03 f12 (fst c1) = ret s23 /\
      compute_adjust self offsets positions =
      (calculation_events a_positions f03 f12 s01 s23
         (crossed_heights s01 s23 c0 c1),
       inr (a_positions, deviations (crossed_heights s01 s23 c0 c1)))) \/
  (exists t, compute_adjust self offsets positions =
             (t, inl ZeroDivisionError)).
Proof.
  destruct (linefit_cases (x_point self offsets s0) (x_point self offsets s3))
    as [[f03 H03] | H03];
    [| right; eexists; apply compute_adjust_x_fit_raises; now left].
  destruct (linefit_cases (x_point self offsets s1) (x_point self offsets s2))
    as [[f12 H12] | H12];
    [| right; eexists; apply compute_adjust_x_fit_raises; right; split;
       [now exists f03 | assumption]].
  destruct (linefit_cases (sy s0 + offsets_1 offsets, plot f03 (fst c0))
                          (sy s1 + offsets_1 offsets, plot f12 (fst c0)))
    as [[s01 H01] | H01];
    [| right; eexists; apply (compute_adjust_y_fit_raises f03 f12);
       try assumption; now left].
  destruct (linefit_cases (sy s0 + offsets_1 offsets, plot f03 (fst c1))
                          (sy s1 + offsets_1 offsets, plot f12 (fst c1)))
    as [[s23 H23] | H23];
    [| right; eexists; apply (compute_adjust_y_fit_raises f03 f12);
       try assumption; right; split; [now exists s01 | assumption]].
  left. exists f03, f12, s01, s23. repeat (split; [assumption |]).
  now apply compute_adjust_run.
Qed.
End Calculation.

(** ** Arithmetic of the mean *)

Lemma deviations_length (h : list Q) :
  List.length (deviations h) = List.length h.
Proof. unfold deviations. apply length_map. Qed.

Lemma deviations_sum4 (h0 h1 h2 h3 : Q) :
  py_sum (deviations [h0; h1; h2; h3]) == 0.
Proof.
  unfold deviations, mean, py_sum, py_len. cbn. field.
Qed.

Lemma deviations_equal4 (a h0 h1 h2 h3 : Q) :
  h0 == a -> h1 == a -> h2 == a -> h3 == a ->
  Forall (fun d => d == 0) (deviations [h0; h1; h2; h3]).
Proof.
  intros E0 E1 E2 E3.
  unfold deviations, mean, py_sum, py_len. cbn.
  repeat constructor; rewrite E0, E1, E2, E3; field.
Qed.

(** ** The adjustments *)

(** C3: on four samples and two (or more) gantry corners, the calculation
    either stops on the division by zero of a fit or returns four
    adjustments whose sum is zero; it returns whenever the X positions of
    each fitted pair and the Y positions of samples 0 and 1 differ. *)
Theorem adjustments_sum_to_zero (self : QuadGantryLevel) (offsets : offsets_t)
    (s0 s1 s2 s3 : probe_sample) (c0 c1 : Q * Q) (cs : list (Q * Q)) :
  gantry_corners self = c0 :: c1 :: cs ->
  match outcome (compute_adjust self offsets (map coords [s0; s1; s2; s3])) with
  | inr (_, a_adjust) => List.length a_adjust = 4%nat /\ py_sum a_adjust == 0
  | inl e => e = ZeroDivisionError
  end /\
  (~ sx s0 == sx s3 -> ~ sx s1 == sx s2 -> ~ sy s0 == sy s1 ->
   exists a_positions a_adjust,
     outcome (compute_adjust self offsets (map coords [s0; s1; s2; s3])) =
     inr (a_positions, a_adjust)).
Proof.
  intros corners.
  destruct (compute_adjust_cases self offsets s0 s1 s2 s3 c0 c1 cs corners)
    as [(f03 & f12 & s01 & s23 & _ & _ & _ & _ & Hrun) | [t Hfail]].
  - rewrite Hrun. cbn [outcome snd]. split.
    + split; [reflexivity | apply deviations_sum4].
    + intros _ _ _. now eexists _, _.
  - rewrite Hfail. cbn [outcome snd]. split; [reflexivity |].
    intros Hx03 Hx12 Hy01. exfalso.
    assert (Hadd : forall a b o, ~ a == b -> ~ a + o == b + o).
    { intros a b o Hab H. apply Hab.
      setoid_replace a with (a + o - o) by ring. rewrite H. ring. }
    destruct (linefit_division_guard (x_point self offsets s0)
                (x_point self offsets s3)) as (_ & [_ H03] & _).
    destruct H03 as [f03 H03]; [left; cbn; now apply Hadd |].
    destruct (linefit_division_guard (x_point self offsets s1)
                (x_point self offsets s2)) as (_ & [_ H12] & _).
    destruct H12 as [f12 H12]; [left; cbn; now apply Hadd |].
    destruct (linefit_division_guard
                (sy s0 + offsets_1 offsets, plot f03 (fst c0))
                (sy s1 + offsets_1 offsets, plot f12 (fst c0)))
      as (_ & [_ H01] & _).
    destruct H01 as [s01 H01]; [left; cbn; now apply Hadd |].
    destruct (linefit_division_guard
                (sy s0 + offsets_1 offsets, plot f03 (fst c1))
                (sy s1 + offsets_1 offsets, plot f12 (fst c1)))
      as (_ & [_ H23] & _).
    destruct H23 as [s23 H23]; [left; cbn; now apply Hadd |].
    rewrite (compute_adjust_run self offsets s0 s1 s2 s3 c0 c1 cs corners
               f03 f12 s01 s23 H03 H12 H01 H23) in Hfail.
    discriminate.
Qed.

Lemma adjustments_sum_to_zero_witness :
  gantry_corners square_gantry = [(0, 0); (10, 10)] /\
  (match outcome (compute_adjust square_gantry no_offsets twisted_round) with
   | inr (_, a_adjust) => List.length a_adjust = 4%nat /\ py_sum a_adjust == 0
   | inl e => e = ZeroDivisionError
   end /\
   (~ 0 == 10 -> ~ 0 == 10 -> ~ 0 == 10 ->
    exists a_positions a_adjust,
      outcome (compute_adjust square_gantry no_offsets twisted_round) =
      inr (a_positions, a_adjust))).
Proof.
  split; [reflexivity |].
  apply (adjustments_sum_to_zero square_gantry no_offsets
           (sample4 0 0 0 5.1) (sample4 0 10 0 5)
           (sample4 10 10 0 4.9) (sample4 10 0 0 5) (0, 0) (10, 10) []).
  reflexivity.
Defined.

(** C6: when the four samples have the same auxiliary-axis value, the
    calculation returns (it divides by nothing) and each of the four
    adjustments is zero, whatever the probe positions, the offsets and the
    corner coordinates are. *)
Theorem level_gantry_needs_no_adjustment (self : QuadGantryLevel)
    (offsets : offsets_t) (s0 s1 s2 s3 : probe_sample) (c0 c1 : Q * Q)
    (cs : list (Q * Q)) :
  gantry_corners self = c0 :: c1 :: cs ->
  sa s1 == sa s0 -> sa s2 == sa s0 -> sa s3 == sa s0 ->
  exists a_adjust,
    outcome (compute_adjust self offsets (map coords [s0; s1; s2; s3])) =
    inr (map (aux_position self) [s0; s1; s2; s3], a_adjust) /\
    List.length a_adjust = 4%nat /\
    Forall (fun d => d == 0) a_adjust.
Proof.
  intros corners E1 E2 E3.
  assert (H03 : x_fit self offsets s0 s3 = ret (0, aux_position self s0)).
  { apply (linefit_flat (x_point self offsets s0) (x_point self offsets s3)).
    unfold x_point, aux_position; cbn [snd]. now rewrite E3. }
  assert (H12 : x_fit self offsets s1 s2 = ret (0, aux_position self s1)).
  { apply (linefit_flat (x_point self offsets s1) (x_point self offsets s2)).
    unfold x_point, aux_position; cbn [snd]. now rewrite E1, E2. }
  assert (Hy : forall cx,
             y_fit offsets s0 s1 (0, aux_position self s0)
                   (0, aux_position self s1) cx =
             ret (0, plot (0, aux_position self s0) cx)).
  { intros cx. unfold y_fit.
    apply (linefit_flat (_, _) (_, _)).
    unfold plot, aux_position; cbn [fst snd]. now rewrite E1. }
  rewrite (compute_adjust_run self offsets s0 s1 s2 s3 c0 c1 cs corners
             _ _ _ _ H03 H12 (Hy (fst c0)) (Hy (fst c1))).
  eexists. split; [reflexivity |]. split; [reflexivity |].
  unfold crossed_heights.
  apply (deviations_equal4 (aux_position self s0));
    unfold plot; cbn [fst snd]; ring.
Qed.

Lemma level_gantry_needs_no_adjustment_witness :
  gantry_corners square_gantry = [(0, 0); (10, 10)] /\
  5 == 5 /\ 5 == 5 /\ 5 == 5 /\
  exists a_adjust,
    outcome (compute_adjust square_gantry no_offsets level_round) =
    inr ([5 - 5; 5 - 5; 5 - 5; 5 - 5], a_adjust) /\
    List.length a_adjust = 4%nat /\
    Forall (fun d => d == 0) a_adjust.
Proof.
  repeat (split; [reflexivity |]).
  apply (level_gantry_needs_no_adjustment square_gantry no_offsets
           (sample4 0 0 0 5) (sample4 0 10 0 5)
           (sample4 10 10 0 5) (sample4 10 0 0 5) (0, 0) (10, 10) []);
    reflexivity.
Defined.

(** ** Which events a computation emits *)

Lemma no_move_ret {A} (a : A) : no_move (ret a).
Proof. reflexivity. Qed.

Lemma no_move_raise {A} (e : exn) : no_move (@raise A e).
Proof. reflexivity. Qed.

Lemma no_move_bind {A B} (m : Py A) (f : A -> Py B) :
  no_move m -> (forall a, no_move (f a)) -> no_move (bind m f).
Proof.
  unfold no_move. intros Hm Hf. rewrite events_bind, filter_app, Hm.
  destruct (outcome m); [reflexivity | apply Hf].
Qed.

Lemma no_move_index {A} (l : list A) (i : nat) : no_move (index l i).
Proof. unfold index. now destruct (nth_error l i). Qed.

Lemma no_move_mapM {A B} (f : A -> Py B) (l : list A) :
  (forall a, no_move (f a)) -> no_move (mapM f l).
Proof.
  intros Hf. induction l as [| a l IH]; cbn [mapM].
  - apply no_move_ret.
  - apply no_move_bind; [apply Hf | intros b].
    apply no_move_bind; [exact IH | intros ys; apply no_move_ret].
Qed.

Lemma no_move_py_div (x y : Q) : no_move (py_div x y).
Proof. unfold py_div. now destruct (Qeq_bool y 0). Qed.

Lemma no_move_linefit (p1 p2 : point) : no_move (linefit p1 p2).
Proof.
  destruct (linefit_cases p1 p2) as [[f H] | H]; now rewrite H.
Qed.

Lemma no_move_respond_info (m : message) : no_move (emit (RespondInfo m)).
Proof. reflexivity. Qed.

Lemma no_move_log_info (m : message) : no_move (emit (LogInfo m)).
Proof. reflexivity. Qed.

Create HintDb no_move.
#[local] Hint Resolve no_move_ret no_move_raise no_move_index no_move_py_div
  no_move_linefit no_move_respond_info no_move_log_info : no_move.

Ltac no_move_tac :=
  repeat first
    [ solve [auto with no_move]
    | apply no_move_bind; [| intros ?]
    | apply no_move_mapM; intros ? ].

(** Nothing in lines 68-127 moves the actuators, on any input. *)
Lemma no_move_compute_adjust (self : QuadGantryLevel) (offsets : offsets_t)
    (positions : list (list Q)) :
  no_move (compute_adjust self offsets positions).
Proof.
  unfold compute_adjust, sample_point, corner_point, height_at, coord.
  no_move_tac.
Qed.

(** ** The [max_adjust] gate, lines 129-142 *)

Section Gate.
Variable self : QuadGantryLevel.
Variable offsets : offsets_t.
Variable positions : list (list Q).
Variable t : list event.
Variables a_positions a_adjust : list Q.
Variable adjust_max : Q.
Hypothesis calculated :
  compute_adjust self offsets positions = (t, inr (a_positions, a_adjust)).
Hypothesis maximum : py_max a_adjust = ret adjust_max.

Let speed : Q := get_lift_speed (collaborators self).

Lemma probe_finalize_gate_closed :
  max_adjust self < adjust_max ->
  probe_finalize self offsets positions =
  (t, inl (GcodeError (abort_message adjust_max (max_adjust self)))).
Proof.
  intros H. apply Qgt_bool_true in H.
  unfold probe_finalize. rewrite calculated. cbn [bind].
  rewrite maximum, bind_ret, H. cbn. now rewrite app_nil_r.
Qed.

Lemma probe_finalize_gate_open :
  adjust_max <= max_adjust self ->
  probe_finalize self offsets positions =
  (t ++ AdjustSteppers a_adjust speed ::
     match adjust_steppers_answer (collaborators self) a_adjust speed with
     | inl _ => []
     | inr _ =>
         CheckRetry a_positions ::
         match check_retry_answer (collaborators self) a_positions with
         | inl _ => []
         | inr r => [CheckRetryResult r]
         end
     end,
   match adjust_steppers_answer (collaborators self) a_adjust speed with
   | inl e => inl e
   | inr _ => check_retry_answer (collaborators self) a_positions
   end).
Proof.
  intros H. apply Qgt_bool_false in H.
  unfold probe_finalize. rewrite calculated. cbn [bind].
  rewrite maximum, bind_ret, H.
  unfold adjust_steppers, check_retry, check_retry_result, lift, emit.
  subst speed.
  destruct (adjust_steppers_answer _ _ _) as [e | []]; cbn; [reflexivity |].
  destruct (check_retry_answer _ _) as [e | r]; reflexivity.
Qed.
End Gate.

Lemma probe_finalize_calculation_raises (self : QuadGantryLevel)
    (offsets : offsets_t) (positions : list (list Q)) (t : list event)
    (e : exn) :
  compute_adjust self offsets positions = (t, inl e) ->
  probe_finalize self offsets positions = (t, inl e).
Proof. intros H. unfold probe_finalize. now rewrite H. Qed.

Lemma pair_of_projections {A} (m : Py A) (r : exn + A) :
  outcome m = r -> m = (events m, r).
Proof. destruct m; cbn; now intros ->. Qed.

(** C1, as amended: when the largest of the computed adjustments (the
    signed maximum that [max] returns) exceeds [max_adjust],
    [probe_finalize] raises the gcode error whose message carries that
    maximum and [max_adjust], and [adjust_steppers] is not called in that
    round. *)
Theorem gate_aborts_on_signed_maximum (self : QuadGantryLevel)
    (offsets : offsets_t) (positions : list (list Q))
    (a_positions a_adjust : list Q) (adjust_max : Q) :
  outcome (compute_adjust self offsets positions) =
    inr (a_positions, a_adjust) ->
  py_max a_adjust = ret adjust_max ->
  max_adjust self < adjust_max ->
  outcome (probe_finalize self offsets positions) =
    inl (GcodeError
           (Message
              "Aborting quad_gantry_level required adjustment %0.6f is greater than max_adjust %0.6f"
              [adjust_max; max_adjust self])) /\
  filter is_adjust_steppers (events (probe_finalize self offsets positions))
  = [].
Proof.
  intros Hcalc Hmax Hgt. apply pair_of_projections in Hcalc.
  rewrite (probe_finalize_gate_closed self offsets positions _ _ _ _
             Hcalc Hmax Hgt).
  split; [reflexivity |]. apply no_move_compute_adjust.
Qed.

Lemma gate_aborts_on_signed_maximum_witness :
  outcome (compute_adjust square_gantry no_offsets one_low_corner) =
    inr ([5 - 13; 5 - 5; 5 - 5; 5 - 5], one_low_adjust) /\
  py_max one_low_adjust = ret (nth 0 one_low_adjust 0) /\
  max_adjust square_gantry < nth 0 one_low_adjust 0 /\
  outcome (probe_finalize square_gantry no_offsets one_low_corner) =
    inl (GcodeError
           (Message
              "Aborting quad_gantry_level required adjustment %0.6f is greater than max_adjust %0.6f"
              [nth 0 one_low_adjust 0; max_adjust square_gantry])) /\
  filter is_adjust_steppers
    (events (probe_finalize square_gantry no_offsets one_low_corner)) = [].
Proof.
  split; [reflexivity |]. split; [reflexivity |]. split; [reflexivity |].
  apply (gate_aborts_on_signed_maximum square_gantry no_offsets one_low_corner
           [5 - 13; 5 - 5; 5 - 5; 5 - 5] one_low_adjust
           (nth 0 one_low_adjust 0)); reflexivity.
Defined.

(** C1 as stated fails: with mirrored positions 8, 0, 0, 0 the adjustments
    are -6, 2, 2, 2; the first exceeds [max_adjust] = 4 in absolute value,
    and yet the round raises nothing and calls [adjust_steppers]. *)
Lemma absolute_value_gate_counterexample :
  outcome (compute_adjust square_gantry no_offsets one_high_corner) =
    inr ([5 - -3; 5 - 5; 5 - 5; 5 - 5], one_high_adjust) /\
  Forall2 Qeq one_high_adjust [-6; 2; 2; 2] /\
  (exists a, In a one_high_adjust /\ max_adjust square_gantry < Qabs a) /\
  outcome (probe_finalize square_gantry no_offsets one_high_corner) =
    inr Retrying /\
  filter is_adjust_steppers
    (events (probe_finalize square_gantry no_offsets one_high_corner)) =
  [AdjustSteppers one_high_adjust 5].
Proof.
  split; [reflexivity |].
  split; [repeat constructor; vm_compute; reflexivity |].
  split; [| split; reflexivity].
  exists (nth 0 one_high_adjust 0). split; [now left | reflexivity].
Qed.

(** C9: the gate compares the signed maximum.  Whenever the largest
    adjustment is at most [max_adjust], the gate raises nothing:
    [adjust_steppers] is called once, with the computed adjustments and the
    lift speed, and the round ends as the collaborators answer.  Nothing is
    asked of the other adjustments, which may lie below [- max_adjust]. *)
Theorem gate_passes_on_signed_maximum (self : QuadGantryLevel)
    (offsets : offsets_t) (positions : list (list Q))
    (a_positions a_adjust : list Q) (adjust_max : Q) :
  outcome (compute_adjust self offsets positions) =
    inr (a_positions, a_adjust) ->
  py_max a_adjust = ret adjust_max ->
  adjust_max <= max_adjust self ->
  let speed := get_lift_speed (collaborators self) in
  filter is_adjust_steppers (events (probe_finalize self offsets positions))
  = [AdjustSteppers a_adjust speed] /\
  outcome (probe_finalize self offsets positions) =
    match adjust_steppers_answer (collaborators self) a_adjust speed with
    | inl e => inl e
    | inr _ => check_retry_answer (collaborators self) a_positions
    end.
Proof.
  intros Hcalc Hmax Hle speed. apply pair_of_projections in Hcalc.
  rewrite (probe_finalize_gate_open self offsets positions _ _ _ _
             Hcalc Hmax Hle).
  split; [| reflexivity].
  cbn [events fst]. rewrite filter_app.
  rewrite (no_move_compute_adjust self offsets positions). cbn.
  destruct (adjust_steppers_answer _ _ _) as [e | u]; [reflexivity |].
  cbn. now destruct (check_retry_answer _ _).
Qed.

Lemma gate_passes_on_signed_maximum_witness :
  outcome (compute_adjust square_gantry no_offsets one_high_corner) =
    inr ([5 - -3; 5 - 5; 5 - 5; 5 - 5], one_high_adjust) /\
  py_max one_high_adjust = ret (nth 1 one_high_adjust 0) /\
  nth 1 one_high_adjust 0 <= max_adjust square_gantry /\
  nth 0 one_high_adjust 0 < - max_adjust square_gantry /\
  filter is_adjust_steppers
    (events (probe_finalize square_gantry no_offsets one_high_corner)) =
  [AdjustSteppers one_high_adjust 5] /\
  outcome (probe_finalize square_gantry no_offsets one_high_corner) =
  inr Retrying.
Proof.
  split; [reflexivity |]. split; [reflexivity |].
  split; [discriminate |]. split; [reflexivity |].
  apply (gate_passes_on_signed_maximum square_gantry no_offsets one_high_corner
           [5 - -3; 5 - 5; 5 - 5; 5 - 5] one_high_adjust
           (nth 1 one_high_adjust 0));
    [reflexivity | reflexivity | discriminate].
Defined.

(** ** What a round reports *)

Lemma probe_finalize_events_prefix (self : QuadGantryLevel)
    (offsets : offsets_t) (positions : list (list Q)) :
  exists rest,
    events (probe_finalize self offsets positions) =
    events (compute_adjust self offsets positions) ++ rest.
Proof.
  unfold probe_finalize. rewrite events_bind. now eexists.
Qed.

Lemma compute_adjust_x_fits_logged (self : QuadGantryLevel)
    (offsets : offsets_t) (s0 s1 s2 s3 : probe_sample) (c0 c1 : Q * Q)
    (cs : list (Q * Q)) (f03 f12 : fit) :
  gantry_corners self = c0 :: c1 :: cs ->
  x_fit self offsets s0 s3 = ret f03 ->
  x_fit self offsets s1 s2 = ret f12 ->
  exists rest,
    events (compute_adjust self offsets (map coords [s0; s1; s2; s3])) =
    RespondInfo (points_message (map (aux_position self) [s0; s1; s2; s3])) ::
    LogInfo (x_fits_message f03 f12) :: rest.
Proof.
  intros corners H03 H12.
  rewrite (compute_adjust_unfold self offsets s0 s1 s2 s3 c0 c1 cs corners).
  rewrite bind_emit, H03, H12. py_steps. rewrite bind_emit.
  cbn [events fst]. now eexists.
Qed.

(** C8: a round first reports the mirrored positions
    [horizontal_move_a - p[3]], one per sample.  The two X-fits are
    [linefit] through samples (0, 3) and (1, 2), each point being (X
    position + X offset, mirrored position): when both return, they are the
    pair logged next; when one divides by zero, the round stops there with
    that exception. *)
Theorem mirrored_positions_and_x_fits (self : QuadGantryLevel)
    (offsets : offsets_t) (s0 s1 s2 s3 : probe_sample) (c0 c1 : Q * Q)
    (cs : list (Q * Q)) :
  gantry_corners self = c0 :: c1 :: cs ->
  let a := fun s => horizontal_move_a self - sa s in
  let ox := offsets_0 offsets in
  let round := probe_finalize self offsets (map coords [s0; s1; s2; s3]) in
  exists rest,
    events round =
      RespondInfo (points_message [a s0; a s1; a s2; a s3]) :: rest /\
    match outcome (linefit (sx s0 + ox, a s0) (sx s3 + ox, a s3)),
          outcome (linefit (sx s1 + ox, a s1) (sx s2 + ox, a s2)) with
    | inr f03, inr f12 =>
        exists rest', rest = LogInfo (x_fits_message f03 f12) :: rest'
    | _, _ => rest = [] /\ outcome round = inl ZeroDivisionError
    end.
Proof.
  intros corners a ox round. subst a ox round.
  destruct (linefit_cases (x_point self offsets s0) (x_point self offsets s3))
    as [[f03 H03] | H03].
  - destruct (linefit_cases (x_point self offsets s1)
                            (x_point self offsets s2)) as [[f12 H12] | H12].
    + destruct (compute_adjust_x_fits_logged self offsets s0 s1 s2 s3 c0 c1 cs
                  f03 f12 corners H03 H12) as [rest Hev].
      destruct (probe_finalize_events_prefix self offsets
                  (map coords [s0; s1; s2; s3])) as [tail Htail].
      rewrite Htail, Hev. unfold x_point, aux_position in H03, H12.
      rewrite H03, H12. cbn [outcome snd ret].
      eexists. split; [reflexivity |]. now eexists.
    + rewrite (probe_finalize_calculation_raises self offsets _ _ _
                 (compute_adjust_x_fit_raises self offsets s0 s1 s2 s3
                    c0 c1 cs corners
                    (or_intror (conj (ex_intro _ f03 H03) H12)))).
      unfold x_point, aux_position in H03, H12.
      rewrite H03, H12. cbn [outcome snd ret raise events fst].
      eexists. split; [reflexivity |]. now split.
  - rewrite (probe_finalize_calculation_raises self offsets _ _ _
               (compute_adjust_x_fit_raises self offsets s0 s1 s2 s3
                  c0 c1 cs corners (or_introl H03))).
    unfold x_point, aux_position in H03.
    rewrite H03. cbn [outcome snd ret raise events fst].
    eexists. split; [reflexivity |]. now split.
Qed.

Lemma mirrored_positions_and_x_fits_witness :
  gantry_corners square_gantry = [(0, 0); (10, 10)] /\
  exists rest,
    events (probe_finalize square_gantry no_offsets twisted_round) =
      RespondInfo (points_message [5 - 5.1; 5 - 5; 5 - 4.9; 5 - 5]) :: rest /\
    match outcome (linefit (0 + 0, 5 - 5.1) (10 + 0, 5 - 5)),
          outcome (linefit (0 + 0, 5 - 5) (10 + 0, 5 - 4.9)) with
    | inr f03, inr f12 =>
        exists rest', rest = LogInfo (x_fits_message f03 f12) :: rest'
    | _, _ =>
        rest = [] /\
        outcome (probe_finalize square_gantry no_offsets twisted_round) =
        inl ZeroDivisionError
    end.
Proof.
  split; [reflexivity |].
  apply (mirrored_positions_and_x_fits square_gantry no_offsets
           (sample4 0 0 0 5.1) (sample4 0 10 0 5)
           (sample4 10 10 0 4.9) (sample4 10 0 0 5) (0, 0) (10, 10) []).
  reflexivity.
Defined.

(** C2: when the two Y-fits return [slope_y_s01] and [slope_y_s23] (the
    pair the round logs), the heights reported next and used for the
    adjustments are, in order, [slope_y_s01] at the Y of corner 0,
    [slope_y_s01] at the Y of corner 1, [slope_y_s23] at the Y of corner 1
    and [slope_y_s23] at the Y of corner 0. *)
Theorem actuator_heights_crossed (self : QuadGantryLevel)
    (offsets : offsets_t) (s0 s1 s2 s3 : probe_sample) (c0 c1 : Q * Q)
    (cs : list (Q * Q)) (f03 f12 slope_y_s01 slope_y_s23 : fit) :
  gantry_corners self = c0 :: c1 :: cs ->
  x_fit self offsets s0 s3 = ret f03 ->
  x_fit self offsets s1 s2 = ret f12 ->
  y_fit offsets s0 s1 f03 f12 (fst c0) = ret slope_y_s01 ->
  y_fit offsets s0 s1 f03 f12 (fst c1) = ret slope_y_s23 ->
  let a_height :=
    [plot slope_y_s01 (snd c0); plot slope_y_s01 (snd c1);
     plot slope_y_s23 (snd c1); plot slope_y_s23 (snd c0)] in
  let positions := map coords [s0; s1; s2; s3] in
  (exists before after,
      events (probe_finalize self offsets positions) =
      before ++
      LogInfo (y_fits_message slope_y_s01 slope_y_s23) ::
      RespondInfo (heights_message a_height) :: after) /\
  outcome (compute_adjust self offsets positions) =
  inr (map (aux_position self) [s0; s1; s2; s3],
       map (fun a => py_sum a_height / 4 - a) a_height).
Proof.
  intros corners H03 H12 H01 H23 a_height positions.
  subst a_height positions.
  pose proof (compute_adjust_run self offsets s0 s1 s2 s3 c0 c1 cs corners
                f03 f12 slope_y_s01 slope_y_s23 H03 H12 H01 H23) as Hrun.
  split.
  - destruct (probe_finalize_events_prefix self offsets
                (map coords [s0; s1; s2; s3])) as [tail Htail].
    rewrite Htail, Hrun. cbn [events fst]. unfold calculation_events.
    exists [RespondInfo (points_message
                           (map (aux_position self) [s0; s1; s2; s3]));
            LogInfo (x_fits_message f03 f12)].
    eexists. cbn [app]. reflexivity.
  - rewrite Hrun. reflexivity.
Qed.

Lemma actuator_heights_crossed_witness :
  gantry_corners square_gantry = [(0, 0); (10, 10)] /\
  x_fit square_gantry no_offsets (sample4 0 0 0 5.1) (sample4 10 0 0 5) =
    ret twisted_f03 /\
  x_fit square_gantry no_offsets (sample4 0 10 0 5) (sample4 10 10 0 4.9) =
    ret twisted_f12 /\
  y_fit no_offsets (sample4 0 0 0 5.1) (sample4 0 10 0 5)
        twisted_f03 twisted_f12 0 = ret twisted_s01 /\
  y_fit no_offsets (sample4 0 0 0 5.1) (sample4 0 10 0 5)
        twisted_f03 twisted_f12 10 = ret twisted_s23 /\
  let a_height :=
    [plot twisted_s01 0; plot twisted_s01 10;
     plot twisted_s23 10; plot twisted_s23 0] in
  (exists before after,
      events (probe_finalize square_gantry no_offsets twisted_round) =
      before ++
      LogInfo (y_fits_message twisted_s01 twisted_s23) ::
      RespondInfo (heights_message a_height) :: after) /\
  outcome (compute_adjust square_gantry no_offsets twisted_round) =
  inr ([5 - 5.1; 5 - 5; 5 - 4.9; 5 - 5],
       map (fun a => py_sum a_height / 4 - a) a_height).
Proof.
  repeat (split; [reflexivity |]).
  apply (actuator_heights_crossed square_gantry no_offsets
           (sample4 0 0 0 5.1) (sample4 0 10 0 5)
           (sample4 10 10 0 4.9) (sample4 10 0 0 5) (0, 0) (10, 10) []
           twisted_f03 twisted_f12 twisted_s01 twisted_s23);
    reflexivity.
Defined.

(** ** The constructor *)

Lemma bind_lift {A B} (r : exn + A) (k : A -> Py B) :
  bind (lift r) k = match r with inl e => raise e | inr a => k a end.
Proof. destruct r as [e | a]; [reflexivity | apply (bind_ret a k)]. Qed.




(** ** The model on concrete configurations and rounds *)

Example init_good_config :
  __init__ good_config =
  ([RegisterCommand "JUST_A_QUAD_GANTRY_LEVEL"
                    cmd_JUST_A_QUAD_GANTRY_LEVEL_help],
   inr square_gantry).
Proof. reflexivity. Qed.

Example init_three_points :
  __init__ three_points_config =
  raise (ConfigError "Need exactly 4 probe points for quad_gantry_level").
Proof. reflexivity. Qed.

Example init_one_corner :
  __init__ one_corner_config =
  raise (ConfigError "quad_gantry_level requires at least two gantry_corners").
Proof. reflexivity. Qed.

(** What [getfloat] raises on [max_adjust] leaves the constructor as it
    is. *)
Example init_refused_max_adjust :
  __init__ refused_max_adjust_config = raise (ConfigError "max_adjust").
Proof. reflexivity. Qed.

Example init_registers_nothing_on_error :
  existsb is_register_command (events (__init__ three_points_config)) = false /\
  existsb is_register_command (events (__init__ one_corner_config)) = false.
Proof. split; reflexivity. Qed.

(** Scenario A of the specification: a level gantry converges at once when
    the retry helper says so. *)
Example level_round_moves_by_zero :
  exists a_adjust,
    filter is_adjust_steppers
      (events (probe_finalize square_gantry no_offsets level_round)) =
    [AdjustSteppers a_adjust 5] /\
    Forall (fun d => d == 0) a_adjust.
Proof.
  eexists. split; [reflexivity |]. repeat constructor; reflexivity.
Qed.

(** Probes 0 and 3 at the same X with different readings: the first fit
    divides by zero and the round stops after its first report. *)
Example stacked_round_divides_by_zero :
  probe_finalize square_gantry no_offsets stacked_round =
  ([RespondInfo (points_message [5 - 5.1; 5 - 5; 5 - 4.9; 5 - 5])],
   inl ZeroDivisionError).
Proof. reflexivity. Qed.

(** Fewer than four samples: the calculation stops on an index error. *)
Example short_round_index_error :
  outcome (probe_finalize square_gantry no_offsets
             [[0; 0; 0; 5]; [0; 10; 0; 5]; [10; 10; 0; 5]]) = inl IndexError.
Proof. reflexivity. Qed.

Example twisted_round_adjusts :
  Forall2 Qeq
    (adjust_of (compute_adjust square_gantry no_offsets twisted_round))
    [0.1; 0; -0.1; 0].
Proof. repeat constructor; vm_compute; reflexivity. Qed.

(** * Further properties of the module *)

(** ** More on [linefit] *)

(** [linefit] on a line: two points of [y = k * x + c] with different
    x give back that line. *)
Lemma linefit_affine (x1 y1 x2 y2 k c : Q) :
  ~ x1 == x2 -> y1 == k * x1 + c -> y2 == k * x2 + c ->
  exists f, linefit (x1, y1) (x2, y2) = ret f /\ fst f == k /\ snd f == c.
Proof.
  intros Hx H1 H2.
  assert (Hd : ~ x2 - x1 == 0) by (intros H; apply Hx; lra).
  destruct (Qeq_dec y1 y2) as [Hy | Hy].
  - rewrite (linefit_flat (x1, y1) (x2, y2) Hy). eexists. split; [reflexivity |].
    cbn [fst snd].
    assert (Hk : k * (x2 - x1) == 0).
    { setoid_replace (k * (x2 - x1)) with ((k * x2 + c) - (k * x1 + c)) by ring.
      rewrite <- H1, <- H2, Hy. ring. }
    apply Qmult_integral in Hk. destruct Hk as [Hk | Hk]; [| contradiction].
    split; [now symmetry |]. rewrite H1, Hk. ring.
  - rewrite (linefit_sloped (x1, y1) (x2, y2) Hy Hx). eexists.
    split; [reflexivity |]. cbn [fst snd].
    assert (Hm : (y2 - y1) / (x2 - x1) == k).
    { rewrite H1, H2. field. exact Hd. }
    split; [exact Hm |]. rewrite Hm, H1. ring.
Qed.

(** X1: in exact arithmetic, [linefit] does not depend on the order of its
    two points: both orders divide by zero, or both return and the two
    fits have equal slope and equal intercept.  (On binary64 the intercepts
    can differ in the last digit, see [binary64_linefit_order].) *)
Theorem linefit_symmetric (p1 p2 : point) :
  (linefit p1 p2 = raise ZeroDivisionError /\
   linefit p2 p1 = raise ZeroDivisionError) \/
  (exists f g, linefit p1 p2 = ret f /\ linefit p2 p1 = ret g /\ fit_eq f g).
Proof.
  destruct (Qeq_dec (snd p1) (snd p2)) as [Hy | Hy];
    [| destruct (Qeq_dec (fst p1) (fst p2)) as [Hx | Hx]].
  - right. exists (0, snd p1), (0, snd p2).
    rewrite (linefit_flat _ _ Hy), (linefit_flat p2 p1) by now symmetry.
    split; [reflexivity |]. split; [reflexivity |].
    split; cbn [fst snd]; [reflexivity | exact Hy].
  - left. split; apply linefit_vertical;
      try assumption; try (now symmetry); intros H; apply Hy; now symmetry.
  - right.
    assert (Hy' : ~ snd p2 == snd p1) by (intros H; apply Hy; now symmetry).
    assert (Hx' : ~ fst p2 == fst p1) by (intros H; apply Hx; now symmetry).
    rewrite (linefit_sloped _ _ Hy Hx), (linefit_sloped _ _ Hy' Hx').
    eexists _, _. split; [reflexivity |]. split; [reflexivity |].
    assert (D1 : ~ fst p2 - fst p1 == 0) by (intros H; apply Hx; lra).
    assert (D2 : ~ fst p1 - fst p2 == 0) by (intros H; apply Hx; lra).
    split; cbn [fst snd]; field; split; assumption.
Qed.

(** ** Inversion of sequenced computations *)

Lemma outcome_bind_inr {A B} (m : Py A) (f : A -> Py B) (b : B) :
  outcome (bind m f) = inr b ->
  exists a, outcome m = inr a /\ outcome (f a) = inr b.
Proof.
  rewrite outcome_bind. destruct (outcome m) as [e | a]; [discriminate |].
  intros H. now exists a.
Qed.

Lemma raises_only_bind {A B} (P : exn -> Prop) (m : Py A) (f : A -> Py B) :
  raises_only P m -> (forall a, raises_only P (f a)) ->
  raises_only P (bind m f).
Proof.
  intros Hm Hf e. rewrite outcome_bind.
  destruct (outcome m) as [e' | a] eqn:E.
  - intros [= <-]. now apply Hm.
  - apply Hf.
Qed.

Lemma raises_only_ret {A} (P : exn -> Prop) (a : A) : raises_only P (ret a).
Proof. intros e. discriminate. Qed.

Lemma raises_only_emit (P : exn -> Prop) (ev : event) :
  raises_only P (emit ev).
Proof. intros e. discriminate. Qed.

Lemma raises_only_index {A} (l : list A) (i : nat) :
  raises_only calculation_error (index l i).
Proof.
  intros e. unfold index. destruct (nth_error l i); [discriminate |].
  intros [= <-]. now left.
Qed.

Lemma raises_only_py_div (x y : Q) :
  raises_only calculation_error (py_div x y).
Proof.
  intros e. unfold py_div. destruct (Qeq_bool y 0); [| discriminate].
  intros [= <-]. now right.
Qed.

Lemma raises_only_linefit (p1 p2 : point) :
  raises_only calculation_error (linefit p1 p2).
Proof.
  intros e. destruct (linefit_cases p1 p2) as [[f H] | H]; rewrite H;
    [discriminate |]. intros [= <-]. now right.
Qed.

Lemma raises_only_mapM {A B} (P : exn -> Prop) (f : A -> Py B) (l : list A) :
  (forall a, raises_only P (f a)) -> raises_only P (mapM f l).
Proof.
  intros Hf. induction l as [| a l IH]; cbn [mapM].
  - apply raises_only_ret.
  - apply raises_only_bind; [apply Hf | intros b].
    apply raises_only_bind; [exact IH | intros ys; apply raises_only_ret].
Qed.

Create HintDb raises.
#[local] Hint Resolve raises_only_ret raises_only_emit raises_only_index
  raises_only_py_div raises_only_linefit : raises.

Ltac raises_tac :=
  repeat first
    [ solve [auto with raises]
    | apply raises_only_bind; [| intros ?]
    | apply raises_only_mapM; intros ? ].

(** On any input, lines 68-127 raise nothing but [IndexError] and
    [ZeroDivisionError]. *)
Lemma compute_adjust_raises (self : QuadGantryLevel) (offsets : offsets_t)
    (positions : list (list Q)) :
  raises_only calculation_error (compute_adjust self offsets positions).
Proof.
  unfold compute_adjust, sample_point, corner_point, height_at, coord.
  raises_tac.
Qed.

Ltac bind_inr H := apply outcome_bind_inr in H; destruct H as (? & _ & H).

(** On any input, what lines 68-127 return as adjustments are the
    deviations of four heights from their mean. *)
Lemma compute_adjust_returns_deviations (self : QuadGantryLevel)
    (offsets : offsets_t) (positions : list (list Q))
    (a_positions a_adjust : list Q) :
  outcome (compute_adjust self offsets positions) =
    inr (a_positions, a_adjust) ->
  exists h0 h1 h2 h3, a_adjust = deviations [h0; h1; h2; h3].
Proof.
  unfold compute_adjust. intros H.
  do 16 bind_inr H.
  apply outcome_bind_inr in H. destruct H as (h0 & _ & H).
  apply outcome_bind_inr in H. destruct H as (h1 & _ & H).
  apply outcome_bind_inr in H. destruct H as (h2 & _ & H).
  apply outcome_bind_inr in H. destruct H as (h3 & _ & H).
  bind_inr H.
  apply outcome_bind_inr in H. destruct H as (a_ave & Have & H).
  bind_inr H.
  rewrite py_div_nonzero in Have by discriminate.
  injection Have as <-. injection H as _ <-.
  now exists h0, h1, h2, h3.
Qed.

(** ** Python's [max] *)

Lemma max_from_upper (l : list Q) : forall m x,
  In x (m :: l) -> x <= max_from m l.
Proof.
  induction l as [| y l IH]; intros m x Hin.
  - destruct Hin as [<- | []]. cbn. apply Qle_refl.
  - cbn [max_from]. destruct (Qgt_bool y m) eqn:E.
    + apply Qgt_bool_true in E.
      destruct Hin as [<- | Hin].
      * apply Qle_trans with y; [now apply Qlt_le_weak | apply IH; now left].
      * apply IH. exact Hin.
    + apply Qgt_bool_false in E.
      destruct Hin as [<- | [<- | Hin]].
      * apply IH. now left.
      * apply Qle_trans with m; [exact E | apply IH; now left].
      * apply IH. now right.
Qed.

Lemma max_from_in (l : list Q) : forall m, In (max_from m l) (m :: l).
Proof.
  induction l as [| y l IH]; intros m; cbn [max_from]; [now left |].
  destruct (Qgt_bool y m).
  - right. apply IH.
  - destruct (IH m) as [H | H]; [now left | right; now right].
Qed.

(** ** A round on any input *)

Lemma sum_zero_bounds (d0 d1 d2 d3 M : Q) :
  py_sum [d0; d1; d2; d3] == 0 ->
  d0 <= M -> d1 <= M -> d2 <= M -> d3 <= M ->
  Forall (fun a => a <= M /\ - (3 * M) <= a) [d0; d1; d2; d3].
Proof.
  unfold py_sum. cbn [fold_left]. intros Hs H0 H1 H2 H3.
  repeat constructor; lra.
Qed.

(** The three ways a round can go, whatever the input is: the calculation
    raises; the gate refuses; the gate lets the move through. *)
Lemma probe_finalize_cases (self : QuadGantryLevel) (offsets : offsets_t)
    (positions : list (list Q)) :
  (exists t e,
      compute_adjust self offsets positions = (t, inl e) /\
      calculation_error e /\
      probe_finalize self offsets positions = (t, inl e)) \/
  (exists t a_positions a_adjust adjust_max,
      compute_adjust self offsets positions =
        (t, inr (a_positions, a_adjust)) /\
      List.length a_adjust = 4%nat /\
      py_sum a_adjust == 0 /\
      py_max a_adjust = ret adjust_max /\
      Forall (fun a => a <= adjust_max) a_adjust /\
      In adjust_max a_adjust /\
      ((max_adjust self < adjust_max /\
        probe_finalize self offsets positions =
        (t, inl (GcodeError (abort_message adjust_max (max_adjust self))))) \/
       (adjust_max <= max_adjust self /\
        exists after,
          probe_finalize self offsets positions =
          (t ++ AdjustSteppers a_adjust (get_lift_speed (collaborators self))
             :: after,
           match adjust_steppers_answer (collaborators self) a_adjust
                   (get_lift_speed (collaborators self)) with
           | inl e => inl e
           | inr _ => check_retry_answer (collaborators self) a_positions
           end) /\
          filter is_adjust_steppers after = []))).
Proof.
  destruct (compute_adjust self offsets positions) as [t [e | [apos adj]]] eqn:E.
  - left. exists t, e. split; [reflexivity |]. split.
    + apply (compute_adjust_raises self offsets positions). now rewrite E.
    + now apply probe_finalize_calculation_raises.
  - right.
    destruct (compute_adjust_returns_deviations self offsets positions apos adj)
      as (h0 & h1 & h2 & h3 & ->); [now rewrite E |].
    set (adj := deviations [h0; h1; h2; h3]) in *.
    set (m := max_from (mean [h0; h1; h2; h3] - h0)
                [mean [h0; h1; h2; h3] - h1; mean [h0; h1; h2; h3] - h2;
                 mean [h0; h1; h2; h3] - h3]).
    assert (Hmax : py_max adj = ret m) by reflexivity.
    exists t, apos, adj, m. split; [reflexivity |].
    split; [reflexivity |]. split; [apply deviations_sum4 |].
    split; [exact Hmax |]. split; [| split].
    + apply Forall_forall. intros x Hx. now apply max_from_upper.
    + apply max_from_in.
    + destruct (Qlt_le_dec (max_adjust self) m) as [Hgt | Hle].
      * left. split; [exact Hgt |].
        now apply (probe_finalize_gate_closed self offsets positions t apos adj m).
      * right. split; [exact Hle |].
        rewrite (probe_finalize_gate_open self offsets positions t apos adj m
                   E Hmax Hle).
        eexists. split; [reflexivity |].
        destruct (adjust_steppers_answer _ _ _) as [e | u]; [reflexivity |].
        cbn. now destruct (check_retry_answer _ _).
Qed.

(** X2: whatever the input, a round that moves the actuators moves them
    once, at the probe helper's lift speed, by four adjustments, each at
    most [max_adjust]; in exact arithmetic the four sum to zero, and so
    each is at least [-3 * max_adjust]. *)
Theorem every_move_is_bounded (self : QuadGantryLevel) (offsets : offsets_t)
    (positions : list (list Q)) (a_adjust : list Q) (speed : Q) :
  In (AdjustSteppers a_adjust speed)
     (events (probe_finalize self offsets positions)) ->
  speed = get_lift_speed (collaborators self) /\
  List.length a_adjust = 4%nat /\
  py_sum a_adjust == 0 /\
  Forall (fun a => a <= max_adjust self /\ - (3 * max_adjust self) <= a)
         a_adjust /\
  filter is_adjust_steppers (events (probe_finalize self offsets positions))
  = [AdjustSteppers a_adjust speed].
Proof.
  intros Hin.
  assert (Hcalc : forall t r,
             compute_adjust self offsets positions = (t, r) ->
             ~ In (AdjustSteppers a_adjust speed) t).
  { intros t r E Ht.
    pose proof (no_move_compute_adjust self offsets positions) as Hno.
    unfold no_move in Hno. rewrite E in Hno. cbn [events fst] in Hno.
    assert (Hf : In (AdjustSteppers a_adjust speed)
                    (filter is_adjust_steppers t))
      by (apply filter_In; now split).
    rewrite Hno in Hf. destruct Hf. }
  destruct (probe_finalize_cases self offsets positions)
    as [(t & e & E & _ & Hpf)
       | (t & apos & adj & m & E & Hlen & Hsum & Hmax & Hall & _ &
          [[_ Hpf] | (Hle & after & Hpf & Hafter)])];
    rewrite Hpf in Hin |- *; cbn [events fst] in Hin |- *.
  - now apply Hcalc in E.
  - now apply Hcalc in E.
  - apply in_app_or in Hin. destruct Hin as [Hin | [Heq | Hin]].
    + now apply Hcalc in E.
    + injection Heq as <- <-.
      split; [reflexivity |]. split; [exact Hlen |]. split; [exact Hsum |].
      split.
      * destruct adj as [| d0 [| d1 [| d2 [| d3 [| ? ?]]]]]; try discriminate.
        inversion Hall as [| ? ? H0 Hall1]; subst.
        inversion Hall1 as [| ? ? H1 Hall2]; subst.
        inversion Hall2 as [| ? ? H2 Hall3]; subst.
        inversion Hall3 as [| ? ? H3 _]; subst.
        apply sum_zero_bounds; try assumption;
          eapply Qle_trans; eassumption.
      * rewrite filter_app.
        pose proof (no_move_compute_adjust self offsets positions) as Hno.
        unfold no_move in Hno. rewrite E in Hno. cbn [events fst] in Hno.
        rewrite Hno. cbn. now rewrite Hafter.
    + exfalso.
      assert (Hf : In (AdjustSteppers a_adjust speed)
                      (filter is_adjust_steppers after))
        by (apply filter_In; now split).
      rewrite Hafter in Hf. destruct Hf.
Qed.

Lemma every_move_is_bounded_witness :
  In (AdjustSteppers one_high_adjust 5)
     (events (probe_finalize square_gantry no_offsets one_high_corner)) /\
  5 = get_lift_speed (collaborators square_gantry) /\
  List.length one_high_adjust = 4%nat /\
  py_sum one_high_adjust == 0 /\
  Forall (fun a => a <= max_adjust square_gantry /\
                   - (3 * max_adjust square_gantry) <= a)
         one_high_adjust /\
  filter is_adjust_steppers
    (events (probe_finalize square_gantry no_offsets one_high_corner))
  = [AdjustSteppers one_high_adjust 5].
Proof.
  assert (H : In (AdjustSteppers one_high_adjust 5)
                 (events (probe_finalize square_gantry no_offsets
                            one_high_corner)))
    by (vm_compute; do 5 right; left; reflexivity).
  split; [exact H |].
  exact (every_move_is_bounded square_gantry no_offsets one_high_corner
           one_high_adjust 5 H).
Defined.

(** X3: whatever the input, a round raises nothing but [IndexError],
    [ZeroDivisionError], the gate's error (carrying a maximum above
    [max_adjust]) or what a collaborator raised; in particular [max] is
    never applied to an empty list. *)
Theorem probe_finalize_raises (self : QuadGantryLevel) (offsets : offsets_t)
    (positions : list (list Q)) (e : exn) :
  outcome (probe_finalize self offsets positions) = inl e ->
  e = IndexError \/
  e = ZeroDivisionError \/
  (exists adjust_max,
      max_adjust self < adjust_max /\
      e = GcodeError (abort_message adjust_max (max_adjust self))) \/
  (exists a_adjust,
      adjust_steppers_answer (collaborators self) a_adjust
        (get_lift_speed (collaborators self)) = inl e) \/
  (exists a_positions,
      check_retry_answer (collaborators self) a_positions = inl e).
Proof.
  destruct (probe_finalize_cases self offsets positions)
    as [(t & e' & _ & [He | He] & Hpf)
       | (t & apos & adj & m & _ & _ & _ & _ & _ & _ &
          [[Hgt Hpf] | (_ & after & Hpf & _)])];
    rewrite Hpf; cbn [outcome snd].
  - intros [= <-]. now left.
  - intros [= <-]. right. now left.
  - intros [= <-]. right. right. left. now exists m.
  - destruct (adjust_steppers_answer _ _ _) as [e' | u] eqn:Ea.
    + intros [= <-]. right. right. right. left. now exists adj.
    + intros H. right. right. right. right. now exists apos.
Qed.

Lemma probe_finalize_raises_witness :
  outcome (probe_finalize square_gantry no_offsets stacked_round) =
    inl ZeroDivisionError /\
  (ZeroDivisionError = IndexError \/
   ZeroDivisionError = ZeroDivisionError \/
   (exists adjust_max,
       max_adjust square_gantry < adjust_max /\
       ZeroDivisionError =
       GcodeError (abort_message adjust_max (max_adjust square_gantry))) \/
   (exists a_adjust,
       adjust_steppers_answer (collaborators square_gantry) a_adjust
         (get_lift_speed (collaborators square_gantry)) =
       inl ZeroDivisionError) \/
   (exists a_positions,
       check_retry_answer (collaborators square_gantry) a_positions =
       inl ZeroDivisionError)).
Proof.
  split; [reflexivity |].
  apply (probe_finalize_raises square_gantry no_offsets stacked_round).
  reflexivity.
Defined.

(** ** What a round reads from its input *)

(** X4: a round reads, from the four samples, only the X positions, the
    auxiliary-axis values and the Y positions of samples 0 and 1, and from
    the offsets only the first two: two rounds that agree on these run
    identically, whatever the Z coordinates, the Y positions of samples 2
    and 3, any further coordinates and the Z offset are. *)
Theorem round_ignores_z (self : QuadGantryLevel) (offsets offsets' : offsets_t)
    (s0 s1 s2 s3 s0' s1' s2' s3' : probe_sample) (c0 c1 : Q * Q)
    (cs : list (Q * Q)) :
  gantry_corners self = c0 :: c1 :: cs ->
  same_x_and_aux s0 s0' -> same_x_and_aux s1 s1' ->
  same_x_and_aux s2 s2' -> same_x_and_aux s3 s3' ->
  sy s0 = sy s0' -> sy s1 = sy s1' ->
  offsets_0 offsets = offsets_0 offsets' ->
  offsets_1 offsets = offsets_1 offsets' ->
  probe_finalize self offsets (map coords [s0; s1; s2; s3]) =
  probe_finalize self offsets' (map coords [s0'; s1'; s2'; s3']).
Proof.
  intros corners [X0 A0] [X1 A1] [X2 A2] [X3 A3] Y0 Y1 O0 O1.
  unfold probe_finalize.
  rewrite (compute_adjust_unfold self offsets s0 s1 s2 s3 c0 c1 cs corners).
  rewrite (compute_adjust_unfold self offsets' s0' s1' s2' s3' c0 c1 cs corners).
  unfold x_fit, y_fit, x_point, aux_position. cbn [map].
  now rewrite X0, X1, X2, X3, A0, A1, A2, A3, Y0, Y1, O0, O1.
Qed.

Lemma round_ignores_z_witness :
  gantry_corners square_gantry = [(0, 0); (10, 10)] /\
  probe_finalize square_gantry (0, 0, 0) twisted_round =
  probe_finalize square_gantry (0, 0, 7)
    [[0; 0; 1; 5.1; 9]; [0; 10; 2; 5]; [10; 3; 3; 4.9]; [10; 4; 4; 5; 8; 8]].
Proof.
  split; [reflexivity |].
  apply (round_ignores_z square_gantry (0, 0, 0) (0, 0, 7)
           (sample4 0 0 0 5.1) (sample4 0 10 0 5)
           (sample4 10 10 0 4.9) (sample4 10 0 0 5)
           {| sx := 0; sy := 0; sz := 1; sa := 5.1; s_extra := [9] |}
           {| sx := 0; sy := 10; sz := 2; sa := 5; s_extra := [] |}
           {| sx := 10; sy := 3; sz := 3; sa := 4.9; s_extra := [] |}
           {| sx := 10; sy := 4; sz := 4; sa := 5; s_extra := [8; 8] |}
           (0, 0) (10, 10) []);
    try reflexivity; split; reflexivity.
Defined.

(** ** Malformed rounds *)

Lemma mirror_all_ok (self : QuadGantryLevel) (positions : list (list Q)) :
  Forall (fun p => (4 <= List.length p)%nat) positions ->
  mapM (fun p => p3 <- index p 3 ;; ret (horizontal_move_a self - p3))
       positions =
  ret (map (mirrored self) positions).
Proof.
  induction 1 as [| p l Hp _ IH]; [reflexivity |].
  cbn [mapM map]. rewrite IH.
  destruct p as [| x [| y [| z [| a r]]]]; cbn in Hp; try lia.
  reflexivity.
Qed.

Lemma mirror_all_short (self : QuadGantryLevel) (positions : list (list Q))
    (p : list Q) :
  In p positions -> (List.length p < 4)%nat ->
  mapM (fun p => p3 <- index p 3 ;; ret (horizontal_move_a self - p3))
       positions =
  raise IndexError.
Proof.
  intros Hin Hshort.
  assert (Hp : nth_error p 3 = None) by (apply nth_error_None; lia).
  induction positions as [| q l IH]; [destruct Hin |].
  cbn [mapM]. unfold index at 1.
  destruct (nth_error q 3) as [a |] eqn:Eq.
  - destruct Hin as [-> | Hin]; [congruence |].
    rewrite !bind_ret, (IH Hin). reflexivity.
  - reflexivity.
Qed.

(** X5: a sample with fewer than four coordinates ends the round with
    [IndexError] before anything is reported, logged or moved. *)
Theorem short_sample_index_error (self : QuadGantryLevel)
    (offsets : offsets_t) (positions : list (list Q)) (p : list Q) :
  In p positions -> (List.length p < 4)%nat ->
  probe_finalize self offsets positions = ([], inl IndexError).
Proof.
  intros Hin Hshort. unfold probe_finalize, compute_adjust.
  now rewrite (mirror_all_short self positions p Hin Hshort).
Qed.

Lemma short_sample_index_error_witness :
  In [10; 10; 0] [[0; 0; 0; 5]; [0; 10; 0; 5]; [10; 10; 0]; [10; 0; 0; 5]] /\
  (List.length [10; 10; 0] < 4)%nat /\
  probe_finalize square_gantry no_offsets
    [[0; 0; 0; 5]; [0; 10; 0; 5]; [10; 10; 0]; [10; 0; 0; 5]] =
  ([], inl IndexError).
Proof.
  assert (H : In [10; 10; 0]
                 [[0; 0; 0; 5]; [0; 10; 0; 5]; [10; 10; 0]; [10; 0; 0; 5]])
    by (right; right; left; reflexivity).
  split; [exact H |]. split; [cbn; lia |].
  apply (short_sample_index_error square_gantry no_offsets _ [10; 10; 0] H).
  cbn; lia.
Defined.

(** X6: fewer than four samples, each with its four coordinates: the
    round reports the mirrored positions of the samples it has, then stops
    with [IndexError]; nothing is fitted, logged or moved. *)
Theorem too_few_samples_index_error (self : QuadGantryLevel)
    (offsets : offsets_t) (positions : list (list Q)) :
  Forall (fun p => (4 <= List.length p)%nat) positions ->
  (List.length positions < 4)%nat ->
  probe_finalize self offsets positions =
  ([RespondInfo (points_message (map (mirrored self) positions))],
   inl IndexError).
Proof.
  intros Hall Hfew. unfold probe_finalize, compute_adjust.
  rewrite (mirror_all_ok self positions Hall), bind_ret.
  destruct positions as [| p0 [| p1 [| p2 [| p3 l]]]];
    cbn [List.length] in Hfew; try lia;
    repeat match goal with
           | H : Forall _ (_ :: _) |- _ => inversion H; clear H; subst
           end;
    repeat match goal with
           | H : (4 <= List.length ?p)%nat |- _ =>
               destruct p as [| ? [| ? [| ? [| ? ?]]]];
               cbn [List.length] in H; try lia; clear H
           end;
    reflexivity.
Qed.

Lemma too_few_samples_index_error_witness :
  Forall (fun p => (4 <= List.length p)%nat)
         [[0; 0; 0; 5]; [0; 10; 0; 5]; [10; 10; 0; 5]] /\
  (List.length [[0; 0; 0; 5]; [0; 10; 0; 5]; [10; 10; 0; 5]] < 4)%nat /\
  probe_finalize square_gantry no_offsets
    [[0; 0; 0; 5]; [0; 10; 0; 5]; [10; 10; 0; 5]] =
  ([RespondInfo (points_message [5 - 5; 5 - 5; 5 - 5])], inl IndexError).
Proof.
  assert (H : Forall (fun p => (4 <= List.length p)%nat)
                     [[0; 0; 0; 5]; [0; 10; 0; 5]; [10; 10; 0; 5]])
    by (repeat constructor).
  split; [exact H |]. split; [cbn; lia |].
  apply (too_few_samples_index_error square_gantry no_offsets _ H).
  cbn; lia.
Defined.

(** ** Shifting and interpolation *)

Lemma plot_proper (f : fit) (x x' : Q) : x == x' -> plot f x == plot f x'.
Proof. intros H. unfold plot. now rewrite H. Qed.

Lemma deviations_shift4 (d h0 h1 h2 h3 k0 k1 k2 k3 : Q) :
  k0 == h0 + d -> k1 == h1 + d -> k2 == h2 + d -> k3 == h3 + d ->
  Forall2 Qeq (deviations [h0; h1; h2; h3]) (deviations [k0; k1; k2; k3]).
Proof.
  intros E0 E1 E2 E3. unfold deviations, mean, py_sum, py_len. cbn.
  repeat constructor; rewrite E0, E1, E2, E3; field.
Qed.

(** Raising both y-values by [d] (and replacing x-values by equal ones)
    keeps the slope and raises the intercept by [d]. *)
Lemma linefit_shift (p1 p2 q1 q2 : point) (d : Q) :
  fst q1 == fst p1 -> fst q2 == fst p2 ->
  snd q1 == snd p1 + d -> snd q2 == snd p2 + d ->
  (linefit p1 p2 = raise ZeroDivisionError /\
   linefit q1 q2 = raise ZeroDivisionError) \/
  (exists f g, linefit p1 p2 = ret f /\ linefit q1 q2 = ret g /\
               fst g == fst f /\ snd g == snd f + d).
Proof.
  intros X1 X2 Y1 Y2.
  destruct (Qeq_dec (snd p1) (snd p2)) as [Hy | Hy];
    [| destruct (Qeq_dec (fst p1) (fst p2)) as [Hx | Hx]].
  - right. exists (0, snd p1), (0, snd q1).
    split; [now apply linefit_flat |].
    split; [apply linefit_flat; now rewrite Y1, Y2, Hy |].
    split; cbn [fst snd]; [reflexivity | exact Y1].
  - left. split; [now apply linefit_vertical |].
    apply linefit_vertical.
    + rewrite Y1, Y2. intros H. apply Hy. lra.
    + now rewrite X1, X2.
  - right.
    assert (Hy' : ~ snd q1 == snd q2)
      by (rewrite Y1, Y2; intros H; apply Hy; lra).
    assert (Hx' : ~ fst q1 == fst q2) by now rewrite X1, X2.
    rewrite (linefit_sloped _ _ Hy Hx), (linefit_sloped _ _ Hy' Hx').
    eexists _, _. split; [reflexivity |]. split; [reflexivity |].
    assert (D : ~ fst p2 - fst p1 == 0) by (intros H; apply Hx; lra).
    cbn [fst snd]. rewrite X1, X2, Y1, Y2. split; field; exact D.
Qed.

(** With different x-values, the fit passes through both points. *)
Lemma linefit_interpolates (x1 y1 x2 y2 : Q) :
  ~ x1 == x2 ->
  exists f, linefit (x1, y1) (x2, y2) = ret f /\
            plot f x1 == y1 /\ plot f x2 == y2.
Proof.
  intros Hx.
  assert (D : ~ x2 - x1 == 0) by (intros H; apply Hx; lra).
  destruct (linefit_affine x1 y1 x2 y2
              ((y2 - y1) / (x2 - x1)) (y1 - (y2 - y1) / (x2 - x1) * x1) Hx)
    as (f & Hf & Hm & Hb).
  - ring.
  - field. exact D.
  - exists f. split; [exact Hf |].
    unfold plot. rewrite Hm, Hb. split; field; exact D.
Qed.

(** ** The adjustments as a function of the measurements *)

(** X7: in exact arithmetic the adjustments do not depend on
    [horizontal_move_a].  With any other reference value the calculation
    raises the same exception, or returns adjustments equal to the original
    ones.  (On binary64 the subtraction rounds, and readings one unit in
    the last place apart can change the outcome, see
    [binary64_mirroring_merges_readings].) *)
Theorem adjustments_independent_of_horizontal_move_a
    (self : QuadGantryLevel) (h : Q) (offsets : offsets_t)
    (s0 s1 s2 s3 : probe_sample) (c0 c1 : Q * Q) (cs : list (Q * Q)) :
  gantry_corners self = c0 :: c1 :: cs ->
  match outcome (compute_adjust self offsets (map coords [s0; s1; s2; s3])),
        outcome (compute_adjust (with_horizontal_move_a self h) offsets
                   (map coords [s0; s1; s2; s3])) with
  | inr (_, a_adjust), inr (_, a_adjust') => Forall2 Qeq a_adjust a_adjust'
  | inl e, inl e' => e = e'
  | _, _ => False
  end.
Proof.
  intros corners.
  set (self' := with_horizontal_move_a self h).
  assert (corners' : gantry_corners self' = c0 :: c1 :: cs) by exact corners.
  set (d := h - horizontal_move_a self).
  assert (Hx : forall s s',
             (x_fit self offsets s s' = raise ZeroDivisionError /\
              x_fit self' offsets s s' = raise ZeroDivisionError) \/
             (exists f g, x_fit self offsets s s' = ret f /\
                          x_fit self' offsets s s' = ret g /\
                          fst g == fst f /\ snd g == snd f + d)).
  { intros s s'. apply linefit_shift; unfold x_point, aux_position;
      cbn [fst snd with_horizontal_move_a horizontal_move_a self'];
      subst d; ring. }
  assert (Hy : forall f03 f12 g03 g12 cx,
             fst g03 == fst f03 -> snd g03 == snd f03 + d ->
             fst g12 == fst f12 -> snd g12 == snd f12 + d ->
             (y_fit offsets s0 s1 f03 f12 cx = raise ZeroDivisionError /\
              y_fit offsets s0 s1 g03 g12 cx = raise ZeroDivisionError) \/
             (exists f g, y_fit offsets s0 s1 f03 f12 cx = ret f /\
                          y_fit offsets s0 s1 g03 g12 cx = ret g /\
                          fst g == fst f /\ snd g == snd f + d)).
  { intros f03 f12 g03 g12 cx A1 A2 B1 B2.
    apply linefit_shift; unfold plot; cbn [fst snd];
      rewrite ?A1, ?A2, ?B1, ?B2; ring. }
  destruct (Hx s0 s3) as [[R R'] | (f03 & g03 & F03 & G03 & A1 & A2)].
  { rewrite (compute_adjust_x_fit_raises self offsets s0 s1 s2 s3 c0 c1 cs
               corners (or_introl R)),
            (compute_adjust_x_fit_raises self' offsets s0 s1 s2 s3 c0 c1 cs
               corners' (or_introl R')).
    reflexivity. }
  destruct (Hx s1 s2) as [[R R'] | (f12 & g12 & F12 & G12 & B1 & B2)].
  { rewrite (compute_adjust_x_fit_raises self offsets s0 s1 s2 s3 c0 c1 cs
               corners (or_intror (conj (ex_intro _ f03 F03) R))),
            (compute_adjust_x_fit_raises self' offsets s0 s1 s2 s3 c0 c1 cs
               corners' (or_intror (conj (ex_intro _ g03 G03) R'))).
    reflexivity. }
  destruct (Hy f03 f12 g03 g12 (fst c0) A1 A2 B1 B2)
    as [[R R'] | (s01 & t01 & F01 & G01 & C1 & C2)].
  { rewrite (compute_adjust_y_fit_raises self offsets s0 s1 s2 s3 c0 c1 cs
               corners f03 f12 F03 F12 (or_introl R)),
            (compute_adjust_y_fit_raises self' offsets s0 s1 s2 s3 c0 c1 cs
               corners' g03 g12 G03 G12 (or_introl R')).
    reflexivity. }
  destruct (Hy f03 f12 g03 g12 (fst c1) A1 A2 B1 B2)
    as [[R R'] | (s23 & t23 & F23 & G23 & D1 & D2)].
  { rewrite (compute_adjust_y_fit_raises self offsets s0 s1 s2 s3 c0 c1 cs
               corners f03 f12 F03 F12
               (or_intror (conj (ex_intro _ s01 F01) R))),
            (compute_adjust_y_fit_raises self' offsets s0 s1 s2 s3 c0 c1 cs
               corners' g03 g12 G03 G12
               (or_intror (conj (ex_intro _ t01 G01) R'))).
    reflexivity. }
  rewrite (compute_adjust_run self offsets s0 s1 s2 s3 c0 c1 cs corners
             f03 f12 s01 s23 F03 F12 F01 F23),
          (compute_adjust_run self' offsets s0 s1 s2 s3 c0 c1 cs corners'
             g03 g12 t01 t23 G03 G12 G01 G23).
  cbn [outcome snd]. unfold crossed_heights.
  apply (deviations_shift4 d); unfold plot;
    rewrite ?C1, ?C2, ?D1, ?D2; ring.
Qed.

Lemma adjustments_independent_of_horizontal_move_a_witness :
  gantry_corners square_gantry = [(0, 0); (10, 10)] /\
  match outcome (compute_adjust square_gantry no_offsets twisted_round),
        outcome (compute_adjust (with_horizontal_move_a square_gantry 0)
                   no_offsets twisted_round) with
  | inr (_, a_adjust), inr (_, a_adjust') => Forall2 Qeq a_adjust a_adjust'
  | inl e, inl e' => e = e'
  | _, _ => False
  end.
Proof.
  split; [reflexivity |].
  apply (adjustments_independent_of_horizontal_move_a square_gantry 0
           no_offsets (sample4 0 0 0 5.1) (sample4 0 10 0 5)
           (sample4 10 10 0 4.9) (sample4 10 0 0 5) (0, 0) (10, 10) []).
  reflexivity.
Defined.

(** X8: in exact arithmetic, when the mirrored positions lie on a twisted
    plane [alpha * x + beta * y + delta * x * y + gamma] over the
    offset-corrected probe positions (samples 0 and 3 on the row of Y 0, samples 1 and 2 on
    the row of Y 1, different X within a row and different Y between the
    rows), the calculation returns, and the four adjustments are the mean
    minus the height of that surface at (c0.x, c0.y), (c0.x, c1.y),
    (c1.x, c1.y) and (c1.x, c0.y). *)
Theorem twisted_plane_is_recovered (self : QuadGantryLevel)
    (offsets : offsets_t) (s0 s1 s2 s3 : probe_sample) (c0 c1 : Q * Q)
    (cs : list (Q * Q)) (alpha beta delta gamma : Q) :
  gantry_corners self = c0 :: c1 :: cs ->
  ~ sx s0 == sx s3 -> ~ sx s1 == sx s2 -> ~ sy s0 == sy s1 ->
  let surface := bilinear alpha beta delta gamma in
  let X := fun s => sx s + offsets_0 offsets in
  let Y := fun s => sy s + offsets_1 offsets in
  aux_position self s0 == surface (X s0) (Y s0) ->
  aux_position self s3 == surface (X s3) (Y s0) ->
  aux_position self s1 == surface (X s1) (Y s1) ->
  aux_position self s2 == surface (X s2) (Y s1) ->
  exists a_adjust,
    outcome (compute_adjust self offsets (map coords [s0; s1; s2; s3])) =
      inr (map (aux_position self) [s0; s1; s2; s3], a_adjust) /\
    Forall2 Qeq a_adjust
      (deviations [surface (fst c0) (snd c0); surface (fst c0) (snd c1);
                   surface (fst c1) (snd c1); surface (fst c1) (snd c0)]).
Proof.
  intros corners Hx03 Hx12 Hy01 surface X Y A0 A3 A1 A2.
  subst surface X Y. unfold bilinear in *. cbn beta in *.
  set (ox := offsets_0 offsets) in *. set (oy := offsets_1 offsets) in *.
  destruct (linefit_affine (sx s0 + ox) (aux_position self s0)
              (sx s3 + ox) (aux_position self s3)
              (alpha + delta * (sy s0 + oy)) (beta * (sy s0 + oy) + gamma))
    as (f03 & F03 & M03 & B03).
  { intros H. apply Hx03. lra. }
  { rewrite A0. ring. }
  { rewrite A3. ring. }
  destruct (linefit_affine (sx s1 + ox) (aux_position self s1)
              (sx s2 + ox) (aux_position self s2)
              (alpha + delta * (sy s1 + oy)) (beta * (sy s1 + oy) + gamma))
    as (f12 & F12 & M12 & B12).
  { intros H. apply Hx12. lra. }
  { rewrite A1. ring. }
  { rewrite A2. ring. }
  assert (Hcol : forall cx,
             exists f, y_fit offsets s0 s1 f03 f12 cx = ret f /\
                       fst f == beta + delta * cx /\
                       snd f == alpha * cx + gamma).
  { intros cx. unfold y_fit. fold oy.
    apply linefit_affine.
    - intros H. apply Hy01. lra.
    - unfold plot. rewrite M03, B03. ring.
    - unfold plot. rewrite M12, B12. ring. }
  destruct (Hcol (fst c0)) as (s01 & F01 & M01 & B01).
  destruct (Hcol (fst c1)) as (s23 & F23 & M23 & B23).
  rewrite (compute_adjust_run self offsets s0 s1 s2 s3 c0 c1 cs corners
             f03 f12 s01 s23 F03 F12 F01 F23).
  eexists. split; [reflexivity |].
  unfold crossed_heights.
  apply (deviations_shift4 0); unfold plot;
    rewrite ?M01, ?B01, ?M23, ?B23; ring.
Qed.

Lemma twisted_plane_is_recovered_witness :
  gantry_corners square_gantry = [(0, 0); (10, 10)] /\
  ~ 0 == 10 /\ ~ 0 == 10 /\ ~ 0 == 10 /\
  5 - 5.1 == bilinear 0.01 0.01 (-0.001) (-0.1) (0 + 0) (0 + 0) /\
  5 - 5 == bilinear 0.01 0.01 (-0.001) (-0.1) (10 + 0) (0 + 0) /\
  5 - 5 == bilinear 0.01 0.01 (-0.001) (-0.1) (0 + 0) (10 + 0) /\
  5 - 5 == bilinear 0.01 0.01 (-0.001) (-0.1) (10 + 0) (10 + 0) /\
  exists a_adjust,
    outcome (compute_adjust square_gantry no_offsets
               [[0; 0; 0; 5.1]; [0; 10; 0; 5]; [10; 10; 0; 5]; [10; 0; 0; 5]])
    = inr ([5 - 5.1; 5 - 5; 5 - 5; 5 - 5], a_adjust) /\
    Forall2 Qeq a_adjust
      (deviations [bilinear 0.01 0.01 (-0.001) (-0.1) 0 0;
                   bilinear 0.01 0.01 (-0.001) (-0.1) 0 10;
                   bilinear 0.01 0.01 (-0.001) (-0.1) 10 10;
                   bilinear 0.01 0.01 (-0.001) (-0.1) 10 0]).
Proof.
  split; [reflexivity |].
  split; [discriminate |]. split; [discriminate |]. split; [discriminate |].
  split; [reflexivity |]. split; [reflexivity |].
  split; [reflexivity |]. split; [reflexivity |].
  apply (twisted_plane_is_recovered square_gantry no_offsets
           (sample4 0 0 0 5.1) (sample4 0 10 0 5)
           (sample4 10 10 0 5) (sample4 10 0 0 5) (0, 0) (10, 10) []
           0.01 0.01 (-0.001) (-0.1));
    solve [reflexivity | discriminate].
Defined.

(** X9: in exact arithmetic, when the offset-corrected probe positions are
    the corners of the gantry rectangle in the order of the diagram (probe
    0 at (c0.x, c0.y), probe 1 at (c0.x, c1.y), probe 2 at (c1.x, c1.y),
    probe 3 at (c1.x, c0.y)), each actuator's height is the mirrored
    position of its own probe: the adjustments are the mean of the four
    mirrored positions minus each of them, in probe order. *)
Theorem probes_at_corners (self : QuadGantryLevel) (offsets : offsets_t)
    (s0 s1 s2 s3 : probe_sample) (c0 c1 : Q * Q) (cs : list (Q * Q)) :
  gantry_corners self = c0 :: c1 :: cs ->
  ~ fst c0 == fst c1 -> ~ snd c0 == snd c1 ->
  sx s0 + offsets_0 offsets == fst c0 ->
  sx s1 + offsets_0 offsets == fst c0 ->
  sx s2 + offsets_0 offsets == fst c1 ->
  sx s3 + offsets_0 offsets == fst c1 ->
  sy s0 + offsets_1 offsets == snd c0 ->
  sy s1 + offsets_1 offsets == snd c1 ->
  exists a_adjust,
    outcome (compute_adjust self offsets (map coords [s0; s1; s2; s3])) =
      inr (map (aux_position self) [s0; s1; s2; s3], a_adjust) /\
    Forall2 Qeq a_adjust
      (deviations (map (aux_position self) [s0; s1; s2; s3])).
Proof.
  intros corners Hcx Hcy X0 X1 X2 X3 Y0 Y1.
  destruct (linefit_interpolates
              (sx s0 + offsets_0 offsets) (aux_position self s0)
              (sx s3 + offsets_0 offsets) (aux_position self s3))
    as (f03 & F03 & P0 & P3); [now rewrite X0, X3 |].
  destruct (linefit_interpolates
              (sx s1 + offsets_0 offsets) (aux_position self s1)
              (sx s2 + offsets_0 offsets) (aux_position self s2))
    as (f12 & F12 & P1 & P2); [now rewrite X1, X2 |].
  rewrite (plot_proper f03 _ _ X0) in P0.
  rewrite (plot_proper f03 _ _ X3) in P3.
  rewrite (plot_proper f12 _ _ X1) in P1.
  rewrite (plot_proper f12 _ _ X2) in P2.
  assert (Hcol : forall cx,
             exists f, y_fit offsets s0 s1 f03 f12 cx = ret f /\
                       plot f (snd c0) == plot f03 cx /\
                       plot f (snd c1) == plot f12 cx).
  { intros cx. unfold y_fit.
    destruct (linefit_interpolates
                (sy s0 + offsets_1 offsets) (plot f03 cx)
                (sy s1 + offsets_1 offsets) (plot f12 cx))
      as (f & F & Q0 & Q1); [now rewrite Y0, Y1 |].
    exists f. split; [exact F |].
    rewrite <- (plot_proper f _ _ Y0), <- (plot_proper f _ _ Y1).
    now split. }
  destruct (Hcol (fst c0)) as (s01 & F01 & H0 & H1).
  destruct (Hcol (fst c1)) as (s23 & F23 & H3 & H2).
  rewrite (compute_adjust_run self offsets s0 s1 s2 s3 c0 c1 cs corners
             f03 f12 s01 s23 F03 F12 F01 F23).
  eexists. split; [reflexivity |].
  unfold crossed_heights. cbn [map].
  apply (deviations_shift4 0);
    rewrite ?H0, ?H1, ?H2, ?H3, ?P0, ?P1, ?P2, ?P3; ring.
Qed.

Lemma probes_at_corners_witness :
  gantry_corners square_gantry = [(0, 0); (10, 10)] /\
  ~ 0 == 10 /\ ~ 0 == 10 /\
  0 + 0 == 0 /\ 0 + 0 == 0 /\ 10 + 0 == 10 /\ 10 + 0 == 10 /\
  0 + 0 == 0 /\ 10 + 0 == 10 /\
  exists a_adjust,
    outcome (compute_adjust square_gantry no_offsets one_high_corner) =
      inr ([5 - -3; 5 - 5; 5 - 5; 5 - 5], a_adjust) /\
    Forall2 Qeq a_adjust (deviations [5 - -3; 5 - 5; 5 - 5; 5 - 5]).
Proof.
  split; [reflexivity |].
  split; [discriminate |]. split; [discriminate |].
  do 6 (split; [reflexivity |]).
  apply (probes_at_corners square_gantry no_offsets
           (sample4 0 0 0 (-3)) (sample4 0 10 0 5)
           (sample4 10 10 0 5) (sample4 10 0 0 5) (0, 0) (10, 10) []);
    solve [reflexivity | discriminate].
Defined.

(** ** A level gantry and the gate *)

Lemma level_run (self : QuadGantryLevel) (offsets : offsets_t)
    (s0 s1 s2 s3 : probe_sample) (c0 c1 : Q * Q) (cs : list (Q * Q)) :
  gantry_corners self = c0 :: c1 :: cs ->
  sa s1 == sa s0 -> sa s2 == sa s0 -> sa s3 == sa s0 ->
  exists a_adjust,
    outcome (compute_adjust self offsets (map coords [s0; s1; s2; s3])) =
    inr (map (aux_position self) [s0; s1; s2; s3], a_adjust) /\
    Forall (fun d => d == 0) a_adjust.
Proof.
  intros corners E1 E2 E3.
  assert (H03 : x_fit self offsets s0 s3 = ret (0, aux_position self s0)).
  { apply (linefit_flat (x_point self offsets s0) (x_point self offsets s3)).
    unfold x_point, aux_position; cbn [snd]. now rewrite E3. }
  assert (H12 : x_fit self offsets s1 s2 = ret (0, aux_position self s1)).
  { apply (linefit_flat (x_point self offsets s1) (x_point self offsets s2)).
    unfold x_point, aux_position; cbn [snd]. now rewrite E1, E2. }
  assert (Hy : forall cx,
             y_fit offsets s0 s1 (0, aux_position self s0)
                   (0, aux_position self s1) cx =
             ret (0, plot (0, aux_position self s0) cx)).
  { intros cx. unfold y_fit. apply (linefit_flat (_, _) (_, _)).
    unfold plot, aux_position; cbn [fst snd]. now rewrite E1. }
  rewrite (compute_adjust_run self offsets s0 s1 s2 s3 c0 c1 cs corners
             _ _ _ _ H03 H12 (Hy (fst c0)) (Hy (fst c1))).
  eexists. split; [reflexivity |].
  unfold crossed_heights.
  apply (deviations_equal4 (aux_position self s0));
    unfold plot; cbn [fst snd]; ring.
Qed.

(** X10: with a non-negative [max_adjust] (the constructor only accepts
    positive ones), a round whose four samples have the same auxiliary-axis
    value is never refused by the gate: [adjust_steppers] is called once,
    with four zero adjustments, and the round ends as the collaborators
    answer. *)
Theorem level_gantry_is_never_refused (self : QuadGantryLevel)
    (offsets : offsets_t) (s0 s1 s2 s3 : probe_sample) (c0 c1 : Q * Q)
    (cs : list (Q * Q)) :
  gantry_corners self = c0 :: c1 :: cs ->
  0 <= max_adjust self ->
  sa s1 == sa s0 -> sa s2 == sa s0 -> sa s3 == sa s0 ->
  let round := probe_finalize self offsets (map coords [s0; s1; s2; s3]) in
  let speed := get_lift_speed (collaborators self) in
  exists a_adjust,
    Forall (fun d => d == 0) a_adjust /\
    filter is_adjust_steppers (events round) =
      [AdjustSteppers a_adjust speed] /\
    outcome round =
      match adjust_steppers_answer (collaborators self) a_adjust speed with
      | inl e => inl e
      | inr _ =>
          check_retry_answer (collaborators self)
            (map (aux_position self) [s0; s1; s2; s3])
      end.
Proof.
  intros corners Hpos E1 E2 E3 round speed. subst round speed.
  destruct (level_run self offsets s0 s1 s2 s3 c0 c1 cs corners E1 E2 E3)
    as (adj0 & Hout & Hzero).
  pose proof (no_move_compute_adjust self offsets
                (map coords [s0; s1; s2; s3])) as Hno.
  unfold no_move in Hno.
  destruct (probe_finalize_cases self offsets (map coords [s0; s1; s2; s3]))
    as [(t & e & E & _ & _)
       | (t & apos & adj & m & E & _ & _ & _ & _ & Hin &
          [[Hgt _] | (_ & after & Hpf & Hafter)])];
    rewrite E in Hout, Hno; cbn [outcome events fst snd] in Hout, Hno;
    try discriminate; injection Hout as -> ->.
  - exfalso. rewrite Forall_forall in Hzero. specialize (Hzero m Hin).
    rewrite Hzero in Hgt. now apply Qlt_not_le in Hgt.
  - exists adj0. split; [exact Hzero |]. rewrite Hpf.
    cbn [outcome events fst snd]. split; [| reflexivity].
    rewrite filter_app, Hno. cbn. now rewrite Hafter.
Qed.

Lemma level_gantry_is_never_refused_witness :
  gantry_corners square_gantry = [(0, 0); (10, 10)] /\
  0 <= max_adjust square_gantry /\
  5 == 5 /\ 5 == 5 /\ 5 == 5 /\
  exists a_adjust,
    Forall (fun d => d == 0) a_adjust /\
    filter is_adjust_steppers
      (events (probe_finalize square_gantry no_offsets level_round)) =
      [AdjustSteppers a_adjust 5] /\
    outcome (probe_finalize square_gantry no_offsets level_round) =
      match adjust_steppers_answer quiet a_adjust 5 with
      | inl e => inl e
      | inr _ => check_retry_answer quiet [5 - 5; 5 - 5; 5 - 5; 5 - 5]
      end.
Proof.
  split; [reflexivity |]. split; [discriminate |].
  do 3 (split; [reflexivity |]).
  apply (level_gantry_is_never_refused square_gantry no_offsets
           (sample4 0 0 0 5) (sample4 0 10 0 5)
           (sample4 10 10 0 5) (sample4 10 0 0 5) (0, 0) (10, 10) []);
    solve [reflexivity | discriminate].
Defined.

(** ** From the configuration to a round *)

Lemma outcome_lift_bind_inr {A B} (r : exn + A) (k : A -> Py B) (b : B) :
  outcome (bind (lift r) k) = inr b ->
  exists a, r = inr a /\ outcome (k a) = inr b.
Proof.
  rewrite bind_lift. destruct r as [e | a]; [discriminate |].
  intros H. now exists a.
Qed.

Lemma init_returns (config : Config) (self : QuadGantryLevel) :
  outcome (__init__ config) = inr self ->
  List.length (probe_points self) = 4%nat /\
  (2 <= List.length (gantry_corners self))%nat /\
  collaborators self = cfg_collaborators config.
Proof.
  unfold __init__. intros H.
  apply outcome_lift_bind_inr in H. destruct H as (_ & _ & H).
  apply outcome_lift_bind_inr in H. destruct H as (_ & _ & H).
  apply outcome_lift_bind_inr in H. destruct H as (ma & _ & H).
  apply outcome_lift_bind_inr in H. destruct H as (hma & _ & H).
  apply outcome_lift_bind_inr in H. destruct H as (pts & _ & H).
  destruct (Nat.eqb (List.length pts) 4) eqn:Hpts;
    cbn [negb] in H; [| discriminate].
  apply outcome_lift_bind_inr in H. destruct H as (_ & _ & H).
  apply outcome_lift_bind_inr in H. destruct H as (_ & _ & H).
  apply outcome_lift_bind_inr in H. destruct H as (gcs & _ & H).
  destruct (Nat.ltb (List.length gcs) 2) eqn:Hgc; [discriminate |].
  apply outcome_lift_bind_inr in H. destruct H as (_ & _ & H).
  rewrite bind_emit in H. cbn [outcome snd] in H.
  apply outcome_lift_bind_inr in H. destruct H as (_ & _ & H).
  injection H as <-. cbn.
  apply Nat.eqb_eq in Hpts. apply Nat.ltb_ge in Hgc. now repeat split.
Qed.

(** X11: an object that [load_config] returns never runs out of range on a
    round of four samples that have their four coordinates: such a round
    raises nothing but the division by zero of a fit, the gate's error, or
    what a collaborator raised. *)
Theorem configured_round_raises (config : Config) (self : QuadGantryLevel)
    (offsets : offsets_t) (s0 s1 s2 s3 : probe_sample) (e : exn) :
  outcome (load_config config) = inr self ->
  outcome (probe_finalize self offsets (map coords [s0; s1; s2; s3])) = inl e ->
  e = ZeroDivisionError \/
  (exists adjust_max,
      max_adjust self < adjust_max /\
      e = GcodeError (abort_message adjust_max (max_adjust self))) \/
  (exists a_adjust,
      adjust_steppers_answer (cfg_collaborators config) a_adjust
        (get_lift_speed (cfg_collaborators config)) = inl e) \/
  (exists a_positions,
      check_retry_answer (cfg_collaborators config) a_positions = inl e).
Proof.
  unfold load_config. intros Hinit.
  destruct (init_returns config self Hinit) as (_ & Hgc & <-).
  destruct (gantry_corners self) as [| c0 [| c1 cs]] eqn:corners;
    cbn in Hgc; try lia.
  destruct (probe_finalize_cases self offsets (map coords [s0; s1; s2; s3]))
    as [(t & e' & E & _ & Hpf)
       | (t & apos & adj & m & _ & _ & _ & _ & _ & _ &
          [[Hgt Hpf] | (_ & after & Hpf & _)])];
    rewrite Hpf; cbn [outcome snd].
  - intros [= <-].
    destruct (compute_adjust_cases self offsets s0 s1 s2 s3 c0 c1 cs corners)
      as [(f03 & f12 & s01 & s23 & _ & _ & _ & _ & Hrun) | [t' Hfail]].
    + rewrite Hrun in E. discriminate.
    + rewrite Hfail in E. injection E as _ <-. now left.
  - intros [= <-]. right. left. now exists m.
  - destruct (adjust_steppers_answer _ _ _) as [e' | u] eqn:Ea.
    + intros [= <-]. right. right. left. now exists adj.
    + intros H. right. right. right. now exists apos.
Qed.

Lemma configured_round_raises_witness :
  outcome (load_config good_config) = inr square_gantry /\
  outcome (probe_finalize square_gantry no_offsets one_low_corner) =
    inl (GcodeError (abort_message (nth 0 one_low_adjust 0) 4)) /\
  (GcodeError (abort_message (nth 0 one_low_adjust 0) 4) = ZeroDivisionError \/
   (exists adjust_max,
       max_adjust square_gantry < adjust_max /\
       GcodeError (abort_message (nth 0 one_low_adjust 0) 4) =
       GcodeError (abort_message adjust_max (max_adjust square_gantry))) \/
   (exists a_adjust,
       adjust_steppers_answer (cfg_collaborators good_config) a_adjust
         (get_lift_speed (cfg_collaborators good_config)) =
       inl (GcodeError (abort_message (nth 0 one_low_adjust 0) 4))) \/
   (exists a_positions,
       check_retry_answer (cfg_collaborators good_config) a_positions =
       inl (GcodeError (abort_message (nth 0 one_low_adjust 0) 4)))).
Proof.
  split; [reflexivity |]. split; [reflexivity |].
  apply (configured_round_raises good_config square_gantry no_offsets
           (sample4 0 0 0 13) (sample4 0 10 0 5)
           (sample4 10 10 0 5) (sample4 10 0 0 5));
    reflexivity.
Defined.



(** ** The order of the gantry corners *)

Lemma deviations_swap4 (h0 h1 h2 h3 : Q) :
  Forall2 Qeq (deviations [h2; h3; h0; h1])
              (swap_diagonals (deviations [h0; h1; h2; h3])).
Proof.
  unfold deviations, mean, py_sum, py_len. cbn.
  repeat constructor; field.
Qed.

(** X12: in exact arithmetic, configuring the two gantry corners in the
    other order exchanges the adjustments of diagonally opposite actuators
    (0 with 2, 1 with 3) and changes nothing else: the calculation raises
    in both orders, or returns in both with the adjustments so exchanged.
    (On binary64 the four heights are summed in another order, so the
    values can differ in the last digits.) *)
Theorem swapped_corners_swap_diagonals (self : QuadGantryLevel)
    (offsets : offsets_t) (s0 s1 s2 s3 : probe_sample) (c0 c1 : Q * Q) :
  match outcome (compute_adjust (with_gantry_corners self [c0; c1]) offsets
                   (map coords [s0; s1; s2; s3])),
        outcome (compute_adjust (with_gantry_corners self [c1; c0]) offsets
                   (map coords [s0; s1; s2; s3])) with
  | inr (a_positions, a_adjust), inr (a_positions', a_adjust') =>
      a_positions' = a_positions /\
      Forall2 Qeq a_adjust' (swap_diagonals a_adjust)
  | inl e, inl e' => e = e'
  | _, _ => False
  end.
Proof.
  set (self1 := with_gantry_corners self [c0; c1]).
  set (self2 := with_gantry_corners self [c1; c0]).
  assert (K1 : gantry_corners self1 = c0 :: c1 :: []) by reflexivity.
  assert (K2 : gantry_corners self2 = c1 :: c0 :: []) by reflexivity.
  destruct (linefit_cases (x_point self offsets s0) (x_point self offsets s3))
    as [[f03 H03] | H03].
  2:{ rewrite (compute_adjust_x_fit_raises self1 offsets s0 s1 s2 s3 _ _ _ K1
                 (or_introl H03)),
              (compute_adjust_x_fit_raises self2 offsets s0 s1 s2 s3 _ _ _ K2
                 (or_introl H03)).
      reflexivity. }
  destruct (linefit_cases (x_point self offsets s1) (x_point self offsets s2))
    as [[f12 H12] | H12].
  2:{ rewrite (compute_adjust_x_fit_raises self1 offsets s0 s1 s2 s3 _ _ _ K1
                 (or_intror (conj (ex_intro _ f03 H03) H12))),
              (compute_adjust_x_fit_raises self2 offsets s0 s1 s2 s3 _ _ _ K2
                 (or_intror (conj (ex_intro _ f03 H03) H12))).
      reflexivity. }
  assert (Hy : forall cx,
             (exists f, y_fit offsets s0 s1 f03 f12 cx = ret f) \/
             y_fit offsets s0 s1 f03 f12 cx = raise ZeroDivisionError)
    by (intros cx; apply linefit_cases).
  destruct (Hy (fst c0)) as [[s01 H01] | H01];
    destruct (Hy (fst c1)) as [[s23 H23] | H23].
  - rewrite (compute_adjust_run self1 offsets s0 s1 s2 s3 _ _ _ K1
               f03 f12 s01 s23 H03 H12 H01 H23),
            (compute_adjust_run self2 offsets s0 s1 s2 s3 _ _ _ K2
               f03 f12 s23 s01 H03 H12 H23 H01).
    cbn [outcome snd]. split; [reflexivity |].
    unfold crossed_heights. apply deviations_swap4.
  - rewrite (compute_adjust_y_fit_raises self1 offsets s0 s1 s2 s3 _ _ _ K1
               f03 f12 H03 H12 (or_intror (conj (ex_intro _ s01 H01) H23))),
            (compute_adjust_y_fit_raises self2 offsets s0 s1 s2 s3 _ _ _ K2
               f03 f12 H03 H12 (or_introl H23)).
    reflexivity.
  - rewrite (compute_adjust_y_fit_raises self1 offsets s0 s1 s2 s3 _ _ _ K1
               f03 f12 H03 H12 (or_introl H01)),
            (compute_adjust_y_fit_raises self2 offsets s0 s1 s2 s3 _ _ _ K2
               f03 f12 H03 H12 (or_intror (conj (ex_intro _ s23 H23) H01))).
    reflexivity.
  - rewrite (compute_adjust_y_fit_raises self1 offsets s0 s1 s2 s3 _ _ _ K1
               f03 f12 H03 H12 (or_introl H01)),
            (compute_adjust_y_fit_raises self2 offsets s0 s1 s2 s3 _ _ _ K2
               f03 f12 H03 H12 (or_introl H23)).
    reflexivity.
Qed.

Example swapped_corners_on_one_high_corner :
  Forall2 Qeq
    (adjust_of (compute_adjust
                  (with_gantry_corners square_gantry [(10, 10); (0, 0)])
                  no_offsets one_high_corner))
    [2; 2; -6; 2].
Proof. repeat constructor; vm_compute; reflexivity. Qed.
